(** * Pomodoro timer core: timer state machines and the persistence manager

    A shallow embedding of [PomodoroTimer.py]: the classes [PomodoroTimer],
    [StudyTimer], [RevisionTimer] and [DataManager].  Python dictionaries
    with string keys are finite maps, Python integers are [Z], instance
    attributes are record fields, and a method that mutates [self] and may
    raise is a computation in a state-and-exception monad: when a method
    raises half way, the attribute writes done before the raise stay. *)

From stdpp Require Import gmap strings list fin_maps.
From Stdlib Require Import ZArith Lia.

Local Open Scope string_scope.
Local Open Scope Z_scope.

(** ** Exceptions and the method monad *)

Inductive exn : Type :=
  | KeyError (key : string)
  | ZeroDivisionError
  | TypeError
  | OSError (path : string)
  | FileNotFoundError (path : string)
  | JSONDecodeError.

Inductive outcome (A : Type) : Type :=
  | Ret (a : A)
  | Raise (e : exn).
Arguments Ret {A} a.
Arguments Raise {A} e.

Global Instance outcome_ret : MRet outcome := λ _ a, Ret a.
Global Instance outcome_bind : MBind outcome := λ _ _ k o,
  match o with
  | Ret a => k a
  | Raise e => Raise e
  end.

(** A method body over an object of type [S]: the final object and either
    the returned value or the exception that escaped. *)
Definition M (S A : Type) : Type := S → S * outcome A.

Global Instance M_ret {S} : MRet (M S) := λ _ a s, (s, Ret a).
Global Instance M_bind {S} : MBind (M S) := λ _ _ k m s,
  match m s with
  | (s', Ret a) => k a s'
  | (s', Raise e) => (s', Raise e)
  end.

Definition raise {S A} (e : exn) : M S A := λ s, (s, Raise e).
(** Evaluate an expression that reads [self] and may raise. *)
Definition eval {S A} (f : S → outcome A) : M S A := λ s, (s, f s).
(** Read an attribute, assign attributes. *)
Definition get {S A} (f : S → A) : M S A := λ s, (s, Ret (f s)).
Definition modify {S} (f : S → S) : M S unit := λ s, (f s, Ret tt).

(** [d[k]] on a dictionary. *)
Definition getitem {V} (d : gmap string V) (k : string) : outcome V :=
  match d !! k with
  | Some v => Ret v
  | None => Raise (KeyError k)
  end.

(** ** The cyclic timer: [BaseTimer] and [PomodoroTimer] *)

Record session_record : Type := SessionRecord {
  rec_type : string;
  rec_duration : Z;
  rec_completed_at : string;
  rec_session_number : Z
}.

Record PomodoroTimer : Type := mkPomodoro {
  _name : string;
  _is_running : bool;
  _total_sessions : Z;
  _current_time : Z;
  _timer_config : gmap string Z;
  _completed_sessions : list session_record;
  _current_session_type : string;
  _sessions_completed : Z;
  _remaining_time : Z
}.

(** The attribute [_session_types] is assigned once in the constructor and
    never written again. *)
Definition _session_types : gset string :=
  {[ "work"; "short_break"; "long_break" ]}.

(** [PomodoroTimer.__init__], after [BaseTimer.__init__]. *)
Definition PomodoroTimer_init (work_duration short_break long_break : Z)
  : PomodoroTimer :=
  {| _name := "Pomodoro Timer";
     _is_running := false;
     _total_sessions := 0;
     _current_time := 0;
     _timer_config :=
       {[ "work_duration" := work_duration;
          "short_break" := short_break;
          "long_break" := long_break;
          "sessions_until_long_break" := 4 ]};
     _completed_sessions := [];
     _current_session_type := "work";
     _sessions_completed := 0;
     _remaining_time := work_duration * 60 |}.

(** The constructor's default arguments. *)
Definition PomodoroTimer_default : PomodoroTimer := PomodoroTimer_init 25 5 15.

Definition set_is_running (b : bool) (t : PomodoroTimer) : PomodoroTimer :=
  mkPomodoro (_name t) b (_total_sessions t) (_current_time t)
    (_timer_config t) (_completed_sessions t) (_current_session_type t)
    (_sessions_completed t) (_remaining_time t).
Definition set_total_sessions (n : Z) (t : PomodoroTimer) : PomodoroTimer :=
  mkPomodoro (_name t) (_is_running t) n (_current_time t)
    (_timer_config t) (_completed_sessions t) (_current_session_type t)
    (_sessions_completed t) (_remaining_time t).
Definition set_timer_config (c : gmap string Z) (t : PomodoroTimer)
  : PomodoroTimer :=
  mkPomodoro (_name t) (_is_running t) (_total_sessions t) (_current_time t)
    c (_completed_sessions t) (_current_session_type t)
    (_sessions_completed t) (_remaining_time t).
Definition set_completed_sessions (l : list session_record)
  (t : PomodoroTimer) : PomodoroTimer :=
  mkPomodoro (_name t) (_is_running t) (_total_sessions t) (_current_time t)
    (_timer_config t) l (_current_session_type t)
    (_sessions_completed t) (_remaining_time t).
Definition set_current_session_type (ty : string) (t : PomodoroTimer)
  : PomodoroTimer :=
  mkPomodoro (_name t) (_is_running t) (_total_sessions t) (_current_time t)
    (_timer_config t) (_completed_sessions t) ty
    (_sessions_completed t) (_remaining_time t).
Definition set_sessions_completed (n : Z) (t : PomodoroTimer)
  : PomodoroTimer :=
  mkPomodoro (_name t) (_is_running t) (_total_sessions t) (_current_time t)
    (_timer_config t) (_completed_sessions t) (_current_session_type t)
    n (_remaining_time t).
Definition set_remaining_time (n : Z) (t : PomodoroTimer) : PomodoroTimer :=
  mkPomodoro (_name t) (_is_running t) (_total_sessions t) (_current_time t)
    (_timer_config t) (_completed_sessions t) (_current_session_type t)
    (_sessions_completed t) n.

Module Pomodoro.

Definition get_total_sessions (t : PomodoroTimer) : Z := _total_sessions t.
Definition is_timer_running (t : PomodoroTimer) : bool := _is_running t.
Definition set_running_state (state : bool) : M PomodoroTimer unit :=
  modify (set_is_running state).

(** A copy of the dictionary: the map itself, a value. *)
Definition get_timer_config (t : PomodoroTimer) : gmap string Z :=
  _timer_config t.

(** [update_config]: the guard indexes [new_config] directly, and [or]
    looks at [short_break] only when the first test is false;
    [dict.update] is the union that prefers the new entries. *)
Definition update_config (new_config : gmap string Z) : M PomodoroTimer bool :=
  w ← eval (λ _, getitem new_config "work_duration");
  invalid ← (if bool_decide (w ≤ 0) then mret true
             else b ← eval (λ _, getitem new_config "short_break");
                  mret (bool_decide (b ≤ 0)));
  if (invalid : bool) then mret false
  else
    modify (λ t, set_timer_config (new_config ∪ _timer_config t) t);;
    running ← get _is_running;
    (if (running : bool) then mret tt
     else wd ← eval (λ t, getitem (_timer_config t) "work_duration");
          modify (set_remaining_time (wd * 60)));;
    mret true.

Definition start_timer : M PomodoroTimer unit :=
  modify (set_is_running true).

(** [%] raises on a zero divisor; for every other divisor Python's result
    has the sign of the divisor, as [Z.modulo] has. *)
Definition py_mod (a b : Z) : outcome Z :=
  if bool_decide (b = 0) then Raise ZeroDivisionError else Ret (a `mod` b).

Definition get_next_session_type (t : PomodoroTimer) : outcome string :=
  if bool_decide (_current_session_type t = "work") then
    n ← getitem (_timer_config t) "sessions_until_long_break";
    r ← py_mod (_sessions_completed t + 1) n;
    if bool_decide (r = 0) then mret "long_break" else mret "short_break"
  else mret "work".

Definition _get_session_duration (session_type : string) (t : PomodoroTimer)
  : outcome Z :=
  if bool_decide (session_type = "work") then
    getitem (_timer_config t) "work_duration"
  else if bool_decide (session_type = "short_break") then
    getitem (_timer_config t) "short_break"
  else if bool_decide (session_type = "long_break") then
    getitem (_timer_config t) "long_break"
  else getitem (_timer_config t) "work_duration".

(** [complete_session]; [now] is the text of [datetime.now()] at the call. *)
Definition complete_session (now : string) : M PomodoroTimer unit :=
  ty ← get _current_session_type;
  d ← eval (_get_session_duration ty);
  sc ← get _sessions_completed;
  let session_record :=
    SessionRecord ty d now
      (if bool_decide (ty = "work") then sc + 1 else sc) in
  modify (λ t, set_completed_sessions
                 (_completed_sessions t ++ [session_record]) t);;
  (if bool_decide (ty = "work") then
     modify (λ t, set_sessions_completed (_sessions_completed t + 1) t);;
     modify (λ t, set_total_sessions (_total_sessions t + 1) t)
   else mret tt);;
  next ← eval get_next_session_type;
  modify (set_current_session_type next);;
  d' ← eval (_get_session_duration next);
  modify (set_remaining_time (d' * 60)).

Definition get_current_session_info (t : PomodoroTimer) : string * Z * Z :=
  (_current_session_type t, _remaining_time t, _sessions_completed t).

End Pomodoro.

(** ** The single-mode timer: [RevisionTimer] *)

Record RevisionTimer : Type := mkRevision {
  r_name : string;
  r_is_running : bool;
  r_total_sessions : Z;
  r_current_time : Z;
  r_duration : Z;                          (* [_duration], in seconds *)
  r_remaining_time : Z;
  r_completed_sessions : list session_record;
  r_current_session_type : string;
  r_sessions_completed : Z;
  r_timer_config : gmap string Z
}.

Definition RevisionTimer_init (duration : Z) : RevisionTimer :=
  {| r_name := "Revision Timer";
     r_is_running := false;
     r_total_sessions := 0;
     r_current_time := 0;
     r_duration := duration * 60;
     r_remaining_time := duration * 60;
     r_completed_sessions := [];
     r_current_session_type := "revision";
     r_sessions_completed := 0;
     r_timer_config := {[ "duration" := duration ]} |}.

Definition RevisionTimer_default : RevisionTimer := RevisionTimer_init 60.

Module Revision.

Definition get_total_sessions (t : RevisionTimer) : Z := r_total_sessions t.

Definition set_running (b : bool) (t : RevisionTimer) : RevisionTimer :=
  mkRevision (r_name t) b (r_total_sessions t) (r_current_time t)
    (r_duration t) (r_remaining_time t) (r_completed_sessions t)
    (r_current_session_type t) (r_sessions_completed t) (r_timer_config t).
Definition set_duration (d : Z) (t : RevisionTimer) : RevisionTimer :=
  mkRevision (r_name t) (r_is_running t) (r_total_sessions t)
    (r_current_time t) d (r_remaining_time t) (r_completed_sessions t)
    (r_current_session_type t) (r_sessions_completed t) (r_timer_config t).
Definition set_remaining (n : Z) (t : RevisionTimer) : RevisionTimer :=
  mkRevision (r_name t) (r_is_running t) (r_total_sessions t)
    (r_current_time t) (r_duration t) n (r_completed_sessions t)
    (r_current_session_type t) (r_sessions_completed t) (r_timer_config t).
Definition set_completed (l : list session_record) (t : RevisionTimer)
  : RevisionTimer :=
  mkRevision (r_name t) (r_is_running t) (r_total_sessions t)
    (r_current_time t) (r_duration t) (r_remaining_time t) l
    (r_current_session_type t) (r_sessions_completed t) (r_timer_config t).
Definition set_counters (sc total : Z) (t : RevisionTimer) : RevisionTimer :=
  mkRevision (r_name t) (r_is_running t) total (r_current_time t)
    (r_duration t) (r_remaining_time t) (r_completed_sessions t)
    (r_current_session_type t) sc (r_timer_config t).

Definition set_running_state (state : bool) : M RevisionTimer unit :=
  modify (set_running state).

(** The [print] of the source writes to the console only. *)
Definition start_timer : M RevisionTimer unit :=
  modify (set_running true).

Definition get_current_session_info (t : RevisionTimer) : string * Z * Z :=
  ("revision", r_remaining_time t, r_total_sessions t).

(** [//] on integers is the floor division. *)
Definition get_timer_config (t : RevisionTimer) : gmap string Z :=
  {[ "duration" := r_duration t `div` 60 ]}.

(** ['duration' in new_config and new_config['duration'] > 0]. *)
Definition update_config (new_config : gmap string Z) : M RevisionTimer bool :=
  match new_config !! "duration" with
  | Some d =>
      if bool_decide (d > 0) then
        modify (set_duration (d * 60));;
        running ← get r_is_running;
        (if (running : bool) then mret tt
         else dur ← get r_duration; modify (set_remaining dur));;
        mret true
      else mret false
  | None => mret false
  end.

Definition complete_session (now : string) : M RevisionTimer unit :=
  dur ← get r_duration;
  sc ← get r_sessions_completed;
  let session_record := SessionRecord "revision" (dur `div` 60) now (sc + 1) in
  modify (λ t, set_completed (r_completed_sessions t ++ [session_record]) t);;
  modify (λ t, set_counters (r_sessions_completed t + 1)
                 (r_total_sessions t + 1) t);;
  dur' ← get r_duration;
  modify (set_remaining dur').

Definition get_next_session_type (t : RevisionTimer) : string := "revision".

End Revision.

(** ** Sequences of operations *)

(** The operations a caller drives a timer with; [OpComplete] carries the
    clock reading of that call. *)
Inductive op : Type :=
  | OpStart
  | OpPause
  | OpComplete (now : string)
  | OpUpdate (new_config : gmap string Z).

Module PomodoroTrace.

(** One operation on the cyclic timer.  [guard] says in which states and
    with which dictionaries [update_config] may be called; a sequence stops
    ([None]) at a call that is not allowed or that does not return [True].
    A [complete_session] that raises leaves the timer as the raise found
    it, and the sequence goes on from there. *)
Definition step (guard : PomodoroTimer → gmap string Z → bool)
    (o : op) (t : PomodoroTimer) : option PomodoroTimer :=
  match o with
  | OpStart => Some (fst (Pomodoro.start_timer t))
  | OpPause => Some (fst (Pomodoro.set_running_state false t))
  | OpComplete now => Some (fst (Pomodoro.complete_session now t))
  | OpUpdate nc =>
      if guard t nc then
        match Pomodoro.update_config nc t with
        | (t', Ret true) => Some t'
        | _ => None
        end
      else None
  end.

Fixpoint run (guard : PomodoroTimer → gmap string Z → bool)
    (ops : list op) (t : PomodoroTimer) : option PomodoroTimer :=
  match ops with
  | [] => Some t
  | o :: ops' =>
      match step guard o t with
      | Some t' => run guard ops' t'
      | None => None
      end
  end.

Definition any_update (t : PomodoroTimer) (nc : gmap string Z) : bool := true.

(** [update_config] called on a stopped timer that is in a work session,
    with a dictionary whose [long_break], when supplied, is positive. *)
Definition idle_work_update (t : PomodoroTimer) (nc : gmap string Z) : bool :=
  negb (_is_running t)
  && bool_decide (_current_session_type t = "work")
  && match nc !! "long_break" with
     | Some l => bool_decide (0 < l)
     | None => true
     end.

End PomodoroTrace.

Module RevisionTrace.

(** One operation on the revision timer; an [update_config] that returns
    [False] leaves the timer as it was and the sequence goes on. *)
Definition step (o : op) (t : RevisionTimer) : RevisionTimer :=
  match o with
  | OpStart => fst (Revision.start_timer t)
  | OpPause => fst (Revision.set_running_state false t)
  | OpComplete now => fst (Revision.complete_session now t)
  | OpUpdate nc => fst (Revision.update_config nc t)
  end.

Definition run (ops : list op) (t : RevisionTimer) : RevisionTimer :=
  foldl (λ t o, step o t) t ops.

Definition is_complete (o : op) : bool :=
  match o with OpComplete _ => true | _ => false end.

End RevisionTrace.

(** ** [StudyTimer] and the timers a [DataManager] is handed *)

Record StudyTimer : Type := mkStudy {
  study_base : PomodoroTimer;
  _daily_goal_minutes : Z;
  _study_notes : list string
}.

Definition StudyTimer_init (work_duration short_break long_break : Z)
  : StudyTimer :=
  {| study_base := PomodoroTimer_init work_duration short_break long_break;
     _daily_goal_minutes := 120;
     _study_notes := [] |}.

Inductive timer : Type :=
  | TPomodoro (t : PomodoroTimer)
  | TStudy (t : StudyTimer)
  | TRevision (t : RevisionTimer).

Definition timer_get_timer_config (t : timer) : gmap string Z :=
  match t with
  | TPomodoro p => Pomodoro.get_timer_config p
  | TStudy s => Pomodoro.get_timer_config (study_base s)
  | TRevision r => Revision.get_timer_config r
  end.

Definition timer_get_total_sessions (t : timer) : Z :=
  match t with
  | TPomodoro p => Pomodoro.get_total_sessions p
  | TStudy s => Pomodoro.get_total_sessions (study_base s)
  | TRevision r => Revision.get_total_sessions r
  end.

(** [getattr(timer, '_completed_sessions', [])]: every class has it. *)
Definition timer_completed_sessions (t : timer) : list session_record :=
  match t with
  | TPomodoro p => _completed_sessions p
  | TStudy s => _completed_sessions (study_base s)
  | TRevision r => r_completed_sessions r
  end.

(** [hasattr(timer, "_study_notes")] and the attribute. *)
Definition timer_study_notes (t : timer) : option (list string) :=
  match t with TStudy s => Some (_study_notes s) | _ => None end.
Definition timer_daily_goal_minutes (t : timer) : option Z :=
  match t with TStudy s => Some (_daily_goal_minutes s) | _ => None end.

(** ** JSON values and the files of the store *)

(** What [json.load] returns; Python's [None] is [JNull].  Numbers are the
    integers, the only numbers a timer writes. *)
#[warnings="-register-all"]
Inductive json : Type :=
  | JNull
  | JBool (b : bool)
  | JNum (n : Z)
  | JStr (s : string)
  | JArr (l : list json)
  | JObj (m : gmap string json).

Definition config_json (c : gmap string Z) : json := JObj (JNum <$> c).

Definition record_json (r : session_record) : json :=
  JObj {[ "type" := JStr (rec_type r);
          "duration" := JNum (rec_duration r);
          "completed_at" := JStr (rec_completed_at r);
          "session_number" := JNum (rec_session_number r) ]}.

(** The text of a file, seen through [json.load]: either it does not parse,
    or it is the text of one JSON value.  [json.dump] writes the text of the
    value it is given, and [json.load] on that text gives the value back. *)
Inductive file_text : Type :=
  | Unparsable (raw : string)
  | Document (v : json).

(** The files that exist, by path, the paths on which [open(p, 'r')]
    fails and the paths on which [open(p, 'w')] fails: a read-only file is
    in the second set only. *)
Record store : Type := mkStore {
  files : gmap string file_text;
  unreadable : gset string;
  unwritable : gset string
}.

Definition path_exists (p : string) (st : store) : bool :=
  bool_decide (is_Some (files st !! p)).

(** [open(p, 'r')] followed by [read()]. *)
Definition read_text (p : string) (st : store) : outcome file_text :=
  if bool_decide (p ∈ unreadable st) then Raise (OSError p)
  else match files st !! p with
       | Some txt => Ret txt
       | None => Raise (FileNotFoundError p)
       end.

(** [open(p, 'w')] followed by the write: the file is replaced whole. *)
Definition write_text (p : string) (txt : file_text) : M store unit :=
  λ st, if bool_decide (p ∈ unwritable st) then (st, Raise (OSError p))
        else (mkStore (<[p := txt]> (files st)) (unreadable st)
                (unwritable st), Ret tt).

Definition json_load (txt : file_text) : outcome json :=
  match txt with
  | Document v => Ret v
  | Unparsable _ => Raise JSONDecodeError
  end.

(** [try: body except Exception as e: handler]. *)
Definition try_except {S A} (body : M S A) (handler : exn → M S A) : M S A :=
  λ s, match body s with
       | (s', Ret a) => (s', Ret a)
       | (s', Raise e) => handler e s'
       end.

Definition catch {A} (body : outcome A) (handler : exn → outcome A)
  : outcome A :=
  match body with
  | Ret a => Ret a
  | Raise e => handler e
  end.

(** [k in s] on strings. *)
Fixpoint is_substring (k s : string) : bool :=
  if String.prefix k s then true
  else match s with
       | EmptyString => false
       | String _ s' => is_substring k s'
       end.

(** [key in data] for a loaded value: a key of a dictionary, an element of
    a list, a substring of a string, and a [TypeError] on the rest. *)
Definition contains (key : string) (data : json) : outcome bool :=
  match data with
  | JObj m => Ret (bool_decide (is_Some (m !! key)))
  | JArr l =>
      Ret (existsb (λ x, match x with
                         | JStr s => bool_decide (s = key)
                         | _ => false
                         end) l)
  | JStr s => Ret (is_substring key s)
  | JNull | JBool _ | JNum _ => Raise TypeError
  end.

(** ** [DataManager] *)

Record DataManager : Type := mkDataManager {
  filename : string;
  backup_filename : string
}.

Definition DataManager_init (filename : string) : DataManager :=
  {| filename := filename; backup_filename := filename +:+ ".bak" |}.

Definition DataManager_default : DataManager :=
  DataManager_init "pomodoro_data.json".

Definition required_keys : list string :=
  [ "timer_config"; "sessions_completed"; "completed_sessions" ].

Module Data.

(** The dictionary [data] that [save_timer_data] builds. *)
Definition snapshot (t : timer) (now : string) : gmap string json :=
  let data : gmap string json :=
    {[ "timer_config" := config_json (timer_get_timer_config t);
       "sessions_completed" := JNum (timer_get_total_sessions t);
       "completed_sessions" :=
         JArr (record_json <$> timer_completed_sessions t);
       "last_saved" := JStr now ]} in
  let data :=
    match timer_study_notes t with
    | Some notes => <["study_notes" := JArr (JStr <$> notes)]> data
    | None => data
    end in
  match timer_daily_goal_minutes t with
  | Some g => <["daily_goal_minutes" := JNum g]> data
  | None => data
  end.

(** [save_timer_data]: the backup copy is tried first and its failure is
    only reported; any other failure makes the result [False]. *)
Definition save_timer_data (dm : DataManager) (t : timer) (now : string)
  : M store bool :=
  try_except
    (let data := snapshot t now in
     ex ← get (path_exists (filename dm));
     (if (ex : bool) then
        try_except
          (backup_data ← eval (read_text (filename dm));
           write_text (backup_filename dm) backup_data)
          (λ _, mret tt)
      else mret tt);;
     write_text (filename dm) (Document (JObj data));;
     mret true)
    (λ _, mret false).

Definition _load_from_backup (dm : DataManager) (st : store) : outcome json :=
  match
    catch
      (if path_exists (backup_filename dm) st then
         txt ← read_text (backup_filename dm) st;
         v ← json_load txt;
         mret (Some v)
       else mret None)
      (λ _, mret None)
  with
  | Ret (Some v) => Ret v
  | _ => Ret JNull
  end.

(** The loop over [required_keys]: [false] at the first key that is not in
    [data]. *)
Fixpoint has_required (keys : list string) (data : json) : outcome bool :=
  match keys with
  | [] => Ret true
  | key :: keys' =>
      b ← contains key data;
      if (b : bool) then has_required keys' data else Ret false
  end.

Definition load_timer_data (dm : DataManager) (st : store) : outcome json :=
  catch
    (if negb (path_exists (filename dm) st) then Ret JNull
     else
       txt ← read_text (filename dm) st;
       data ← json_load txt;
       ok ← has_required required_keys data;
       if (ok : bool) then Ret data else Ret JNull)
    (λ _, _load_from_backup dm st).

End Data.

(** ** Predicates and auxiliary functions of the statements *)

(** The timer a call of [update_config] that returns [True] leaves; [w] is
    the work duration the call supplied. *)
Definition updated (t : PomodoroTimer) (new_config : gmap string Z) (w : Z)
  : PomodoroTimer :=
  let t' := set_timer_config (new_config ∪ _timer_config t) t in
  if _is_running t then t' else set_remaining_time (w * 60) t'.

(** A configuration that has the four keys of the constructor and a
    cycle length that [%] accepts. *)
Definition config_complete (c : gmap string Z) : Prop :=
  is_Some (c !! "work_duration") ∧ is_Some (c !! "short_break")
  ∧ is_Some (c !! "long_break")
  ∧ ∃ n, c !! "sessions_until_long_break" = Some n ∧ n ≠ 0.

(** The timer between the counter update and the session switch. *)
Definition counted (now : string) (d : Z) (t : PomodoroTimer) : PomodoroTimer :=
  let ty := _current_session_type t in
  let sc := _sessions_completed t in
  let t1 :=
    set_completed_sessions
      (_completed_sessions t
       ++ [SessionRecord ty d now
             (if bool_decide (ty = "work") then sc + 1 else sc)]) t in
  if bool_decide (ty = "work") then
    set_total_sessions (_total_sessions t + 1)
      (set_sessions_completed (sc + 1) t1)
  else t1.

(** The three durations are present and positive, a cycle length is
    present, the session type is one of the three, and the remaining time
    is the full configured duration of the current session. *)
Definition timer_ok (t : PomodoroTimer) : Prop :=
  (∃ w b l n,
      _timer_config t !! "work_duration" = Some w
      ∧ _timer_config t !! "short_break" = Some b
      ∧ _timer_config t !! "long_break" = Some l
      ∧ _timer_config t !! "sessions_until_long_break" = Some n
      ∧ 0 < w ∧ 0 < b ∧ 0 < l)
  ∧ _current_session_type t ∈ _session_types
  ∧ ∃ d, Pomodoro._get_session_duration (_current_session_type t) t = Ret d
         ∧ _remaining_time t = d * 60.

(** Complete [n] work sessions in a row, each followed by its break, and
    list the break that follows each work session. *)
Fixpoint breaks_after_work (n : nat) (now : string) (t : PomodoroTimer)
  : list string :=
  match n with
  | O => []
  | S n' =>
      let after_work := (Pomodoro.complete_session now t).1 in
      let after_break := (Pomodoro.complete_session now after_work).1 in
      _current_session_type after_work :: breaks_after_work n' now after_break
  end.

(** The constructor and [update_config] keep [_duration] a whole number of
    minutes. *)
Definition whole_minutes (t : RevisionTimer) : Prop :=
  ∃ d, r_duration t = d * 60.

(** The number of [complete_session] calls in a sequence. *)
Definition completions (ops : list op) : Z :=
  Z.of_nat (length (filter (λ o, RevisionTrace.is_complete o = true) ops)).

(** ** Statistics *)

Module PomodoroStats.

(** The loop of [get_statistics]: the work records met so far and the
    running sum of the durations. *)
Definition scan (sessions : list session_record)
  : list session_record * Z :=
  foldl (λ (acc : list session_record * Z) session,
           (if bool_decide (rec_type session = "work")
            then (acc.1 ++ [session])%list else acc.1,
            acc.2 + rec_duration session))
        ([], 0) sessions.

Definition get_statistics (t : PomodoroTimer) : gmap string Z :=
  match _completed_sessions t with
  | [] =>
      {[ "total_sessions" := 0; "total_time" := 0;
         "completed_sessions" := 0 ]}
  | _ =>
      let r := scan (_completed_sessions t) in
      {[ "total_sessions" := Z.of_nat (length r.1);
         "total_time" := r.2;
         "completed_sessions" := Z.of_nat (length (_completed_sessions t)) ]}
  end.

End PomodoroStats.

Module RevisionStats.

Definition scan (sessions : list session_record) : Z :=
  foldl (λ total_time session, total_time + rec_duration session) 0 sessions.

Definition get_statistics (t : RevisionTimer) : gmap string Z :=
  match r_completed_sessions t with
  | [] =>
      {[ "total_sessions" := 0; "total_time" := 0;
         "completed_sessions" := 0 ]}
  | _ =>
      {[ "total_sessions" := Z.of_nat (length (r_completed_sessions t));
         "total_time" := scan (r_completed_sessions t);
         "completed_sessions" :=
           Z.of_nat (length (r_completed_sessions t)) ]}
  end.

End RevisionStats.

(** ** Study notes *)

(** [str.isspace] on the characters with code below 256; a [string] here
    is a Python string over those characters. *)
Definition py_isspace (c : Ascii.ascii) : bool :=
  let n := Ascii.N_of_ascii c in
  ((9 <=? n) && (n <=? 13) || (28 <=? n) && (n <=? 32)
   || (n =? 133) || (n =? 160))%N.

Fixpoint lstrip (s : string) : string :=
  match s with
  | EmptyString => EmptyString
  | String c s' => if py_isspace c then lstrip s' else s
  end.

Fixpoint rstrip (s : string) : string :=
  match s with
  | EmptyString => EmptyString
  | String c s' =>
      match rstrip s' with
      | EmptyString =>
          if py_isspace c then EmptyString else String c EmptyString
      | r => String c r
      end
  end.

(** [s.strip()]. *)
Definition strip (s : string) : string := rstrip (lstrip s).

Module Study.

(** [note and len(note.strip()) > 0]: a non-empty note with something left
    after stripping. *)
Definition add_study_note (note : string) : M StudyTimer unit :=
  if negb (bool_decide (note = ""))
     && bool_decide (0 < Z.of_nat (String.length (strip note)))
  then modify (λ t, mkStudy (study_base t) (_daily_goal_minutes t)
                      (_study_notes t ++ [strip note])%list)
  else mret tt.

Definition get_study_notes (t : StudyTimer) : list string := _study_notes t.

End Study.

(** Add the notes of a list one after the other. *)
Definition add_notes (notes : list string) (t : StudyTimer) : StudyTimer :=
  foldl (λ t note, (Study.add_study_note note t).1) t notes.

Fixpoint string_last (s : string) : option Ascii.ascii :=
  match s with
  | EmptyString => None
  | String c EmptyString => Some c
  | String _ s' => string_last s'
  end.

Definition string_head (s : string) : option Ascii.ascii :=
  match s with
  | EmptyString => None
  | String c _ => Some c
  end.

(** A stored note: not empty, no white space at either end. *)
Definition trimmed (s : string) : Prop :=
  (∃ c, string_head s = Some c ∧ py_isspace c = false)
  ∧ (∃ c, string_last s = Some c ∧ py_isspace c = false).

(** A note made of white space only, the empty note included. *)
Fixpoint all_space (s : string) : bool :=
  match s with
  | EmptyString => true
  | String c s' => py_isspace c && all_space s'
  end.

Definition sum_durations (sessions : list session_record) : Z :=
  foldr (λ session acc, rec_duration session + acc) 0 sessions.

Definition work_records (sessions : list session_record)
  : list session_record :=
  filter (λ session, rec_type session = "work") sessions.

(** The work counter, the total counter and the work records of the
    history move together. *)
Definition counters_match (t : PomodoroTimer) : Prop :=
  Z.of_nat (length (work_records (_completed_sessions t)))
    = _sessions_completed t
  ∧ _sessions_completed t = _total_sessions t.

(** The revision timer's duration is a positive whole number of minutes and
    every record in its history is a revision record of positive
    duration. *)
Definition revision_ok (t : RevisionTimer) : Prop :=
  (∃ d, 0 < d ∧ r_duration t = d * 60)
  ∧ Forall (λ r, rec_type r = "revision" ∧ 0 < rec_duration r)
      (r_completed_sessions t).

(** ** Restoring a timer from loaded data *)

(** The timers of this development hold integers, strings and session
    records where Python would hold whatever the file gave.  A method body
    that is handed a loaded value is therefore a computation that may also
    leave the model: [None] stands for a loaded value that is not of the
    shape a timer writes, and says nothing about what Python does then. *)
Definition MO (S A : Type) : Type := S → option (S * outcome A).

Global Instance MO_ret {S} : MRet (MO S) := λ _ a s, Some (s, Ret a).
Global Instance MO_bind {S} : MBind (MO S) := λ _ _ k m s,
  match m s with
  | Some (s', Ret a) => k a s'
  | Some (s', Raise e) => Some (s', Raise e)
  | None => None
  end.

Definition liftM {S A} (m : M S A) : MO S A := λ s, Some (m s).
Definition typed {S A} (o : option A) : MO S A :=
  λ s, match o with
       | Some a => Some (s, Ret a)
       | None => None
       end.
Definition try_except_o {S A} (body : MO S A) (handler : exn → MO S A)
  : MO S A :=
  λ s, match body s with
       | Some (s', Ret a) => Some (s', Ret a)
       | Some (s', Raise e) => handler e s'
       | None => None
       end.

(** [if data:] on a loaded value. *)
Definition truthy (v : json) : bool :=
  match v with
  | JNull => false
  | JBool b => b
  | JNum n => negb (bool_decide (n = 0))
  | JStr s => negb (bool_decide (s = ""))
  | JArr l => match l with [] => false | _ => true end
  | JObj m => negb (bool_decide (m = ∅))
  end.

(** [data[key]] with a string key: only a dictionary can be indexed so. *)
Definition json_getitem (data : json) (key : string) : outcome json :=
  match data with
  | JObj m => getitem m key
  | _ => Raise TypeError
  end.

Definition as_int (v : json) : option Z :=
  match v with JNum n => Some n | _ => None end.
Definition as_str (v : json) : option string :=
  match v with JStr s => Some s | _ => None end.

(** A dictionary of integers, as [get_timer_config] writes it. *)
Definition config_of_json (m : gmap string json) : option (gmap string Z) :=
  if decide (map_Forall (λ _ v, is_Some (as_int v)) m)
  then Some (omap as_int m) else None.

(** A dictionary with exactly the four fields of a session record. *)
Definition record_of_json (v : json) : option session_record :=
  match v with
  | JObj m =>
      if bool_decide (size m = 4%nat) then
        ty ← m !! "type" ≫= as_str;
        d ← m !! "duration" ≫= as_int;
        at_ ← m !! "completed_at" ≫= as_str;
        n ← m !! "session_number" ≫= as_int;
        Some (SessionRecord ty d at_ n)
      else None
  | _ => None
  end.

Definition sessions_of_json (v : json) : option (list session_record) :=
  match v with
  | JArr l => mapM record_of_json l
  | _ => None
  end.

Definition notes_of_json (v : json) : option (list string) :=
  match v with
  | JArr l => mapM as_str l
  | _ => None
  end.

(** [timer.update_config(v)] for a loaded [v] on the cyclic timer: a value
    that is not a dictionary cannot be indexed by ['work_duration']. *)
Definition pomodoro_update_config_json (v : json) : MO PomodoroTimer bool :=
  match v with
  | JObj m => cfg ← typed (config_of_json m); liftM (Pomodoro.update_config cfg)
  | _ => liftM (raise TypeError)
  end.

(** The same on the revision timer, whose guard starts with
    ['duration' in new_config]. *)
Definition revision_update_config_json (v : json) : MO RevisionTimer bool :=
  match v with
  | JObj m => cfg ← typed (config_of_json m); liftM (Revision.update_config cfg)
  | _ =>
      b ← liftM (eval (λ _, contains "duration" v));
      if (b : bool) then liftM (raise TypeError) else mret false
  end.

Definition on_base {A} (m : MO PomodoroTimer A) : MO StudyTimer A :=
  λ s, match m (study_base s) with
       | Some (p, o) =>
           Some (mkStudy p (_daily_goal_minutes s) (_study_notes s), o)
       | None => None
       end.

Module Main.

(** [MainApplication.load_saved_data]; [self.timer] is the [StudyTimer]
    the application was built with. *)
Definition restore_config (data : json) : MO StudyTimer unit :=
  b ← liftM (eval (λ _, contains "timer_config" data));
  if (b : bool) then
    v ← liftM (eval (λ _, json_getitem data "timer_config"));
    on_base (pomodoro_update_config_json v);;
    mret tt
  else mret tt.

Definition restore_sessions (data : json) : MO StudyTimer unit :=
  b ← liftM (eval (λ _, contains "completed_sessions" data));
  if (b : bool) then
    v ← liftM (eval (λ _, json_getitem data "completed_sessions"));
    l ← typed (sessions_of_json v);
    on_base (liftM (modify (set_completed_sessions l)))
  else mret tt.

Definition restore_counters (data : json) : MO StudyTimer unit :=
  b ← liftM (eval (λ _, contains "sessions_completed" data));
  if (b : bool) then
    v ← liftM (eval (λ _, json_getitem data "sessions_completed"));
    n ← typed (as_int v);
    on_base (liftM (modify (set_sessions_completed n)));;
    v' ← liftM (eval (λ _, json_getitem data "sessions_completed"));
    n' ← typed (as_int v');
    on_base (liftM (modify (set_total_sessions n')))
  else mret tt.

Definition restore_notes (data : json) : MO StudyTimer unit :=
  b ← liftM (eval (λ _, contains "study_notes" data));
  if (b : bool) then
    v ← liftM (eval (λ _, json_getitem data "study_notes"));
    l ← typed (notes_of_json v);
    liftM (modify (λ s, mkStudy (study_base s) (_daily_goal_minutes s) l))
  else mret tt.

Definition restore_goal (data : json) : MO StudyTimer unit :=
  b ← liftM (eval (λ _, contains "daily_goal_minutes" data));
  if (b : bool) then
    v ← liftM (eval (λ _, json_getitem data "daily_goal_minutes"));
    g ← typed (as_int v);
    liftM (modify (λ s, mkStudy (study_base s) g (_study_notes s)))
  else mret tt.

Definition load_saved_data (dm : DataManager) (st : store)
  : MO StudyTimer unit :=
  try_except_o
    (data ← liftM (eval (λ _, Data.load_timer_data dm st));
     if truthy data then
       restore_config data;;
       restore_sessions data;;
       restore_counters data;;
       restore_notes data;;
       restore_goal data
     else mret tt)
    (λ _, mret tt).

End Main.

(** [StudyTimer()], the timer [MainApplication] starts with. *)
Definition StudyTimer_default : StudyTimer := StudyTimer_init 25 5 15.

Definition set_study_base (p : PomodoroTimer) (s : StudyTimer) : StudyTimer :=
  mkStudy p (_daily_goal_minutes s) (_study_notes s).

(** ** [PomodoroApplication]: the handlers, without the widgets *)

(** The attributes of [PomodoroApplication] that the handlers read and
    write besides widgets.  Labels, buttons and message boxes are display
    only and are left out; so is the countdown thread that [start_timer]
    launches, which runs beside the handlers. *)
Record PomodoroApplication : Type := mkApp {
  app_timer : timer;
  data_manager : DataManager;
  is_timer_active : bool;
  timer_type_var : string
}.

Definition PomodoroApplication_init (t : timer) (dm : DataManager)
  : PomodoroApplication :=
  {| app_timer := t; data_manager := dm; is_timer_active := false;
     timer_type_var := "Pomodoro" |}.

(** The application and the files it saves to. *)
Record world : Type := mkWorld {
  app : PomodoroApplication;
  disk : store
}.

Definition set_app_timer (t : timer) (a : PomodoroApplication)
  : PomodoroApplication :=
  mkApp t (data_manager a) (is_timer_active a) (timer_type_var a).
Definition set_active (b : bool) (a : PomodoroApplication)
  : PomodoroApplication :=
  mkApp (app_timer a) (data_manager a) b (timer_type_var a).

(** [isinstance(self.timer, PomodoroTimer)]: a [StudyTimer] is one. *)
Definition is_pomodoro (t : timer) : bool :=
  match t with TPomodoro _ | TStudy _ => true | TRevision _ => false end.

(** [isinstance(self.timer, RevisionTimer)]. *)
Definition is_revision (t : timer) : bool :=
  match t with TRevision _ => true | _ => false end.

(** The cyclic timer inside a [PomodoroTimer] or a [StudyTimer]. *)
Definition cyclic (t : timer) : option PomodoroTimer :=
  match t with
  | TPomodoro p => Some p
  | TStudy s => Some (study_base s)
  | TRevision _ => None
  end.

Definition timer_is_running (t : timer) : bool :=
  match t with
  | TPomodoro p => _is_running p
  | TStudy s => _is_running (study_base s)
  | TRevision r => r_is_running r
  end.

(** A method called on [self.timer]: the body of the class of the timer. *)
Definition dispatch {A} (fp : M PomodoroTimer A) (fr : M RevisionTimer A)
  : M timer A :=
  λ t, match t with
       | TPomodoro p => let (p', o) := fp p in (TPomodoro p', o)
       | TStudy s => let (p', o) := fp (study_base s) in
                     (TStudy (set_study_base p' s), o)
       | TRevision r => let (r', o) := fr r in (TRevision r', o)
       end.

Definition on_timer {A} (m : M timer A) : M PomodoroApplication A :=
  λ a, let (t', o) := m (app_timer a) in (set_app_timer t' a, o).
Definition on_app {A} (m : M PomodoroApplication A) : M world A :=
  λ w, let (a', o) := m (app w) in (mkWorld a' (disk w), o).
Definition on_disk {A} (m : M store A) : M world A :=
  λ w, let (d', o) := m (disk w) in (mkWorld (app w) d', o).

(** The methods both timer classes have, called on [self.timer]. *)
Definition timer_start_timer : M timer unit :=
  dispatch Pomodoro.start_timer Revision.start_timer.
Definition timer_set_running_state (state : bool) : M timer unit :=
  dispatch (Pomodoro.set_running_state state)
    (Revision.set_running_state state).
Definition timer_complete_session (now : string) : M timer unit :=
  dispatch (Pomodoro.complete_session now) (Revision.complete_session now).
Definition timer_update_config (new_config : gmap string Z) : M timer bool :=
  dispatch (Pomodoro.update_config new_config)
    (Revision.update_config new_config).

(** The entries of the settings dialog, after [int()]. *)
Inductive settings_entries : Type :=
  | RevisionEntries (duration : Z)
  | PomodoroEntries (work shortbreak longbreak : Z).

Module App.

Definition start_timer : M PomodoroApplication unit :=
  active ← get is_timer_active;
  if (active : bool) then mret tt
  else
    modify (set_active true);;
    on_timer timer_start_timer.

Definition pause_timer : M PomodoroApplication unit :=
  active ← get is_timer_active;
  if (active : bool) then
    modify (set_active false);;
    on_timer (timer_set_running_state false)
  else mret tt.

Definition reset_timer : M PomodoroApplication unit :=
  modify (set_active false);;
  on_timer (timer_set_running_state false);;
  on_timer (dispatch
    (modify (set_current_session_type "work");;
     wd ← eval (λ t, getitem (_timer_config t) "work_duration");
     modify (set_remaining_time (wd * 60)))
    (dur ← get r_duration; modify (Revision.set_remaining dur))).

(** [save_data]: nothing is written in Revision mode; [save_timer_data]
    reports failure by its result, which only chooses a message. *)
Definition save_data (now : string) : M world unit :=
  try_except
    (choice ← on_app (get timer_type_var);
     if bool_decide (choice = "Revision") then mret tt
     else
       dm ← on_app (get data_manager);
       t ← on_app (get app_timer);
       on_disk (Data.save_timer_data dm t now);;
       mret tt)
    (λ _, mret tt).

(** [handle_session_completion]; [now] is the clock at [complete_session],
    [saved_at] the clock at the save.  The answer to the question it asks
    only decides whether a later [start_timer] is scheduled. *)
Definition handle_session_completion (now saved_at : string) : M world unit :=
  on_app (on_timer (timer_complete_session now));;
  on_app (modify (set_active false));;
  on_app (on_timer (timer_set_running_state false));;
  save_data saved_at.

(** [save_settings] from the entries read; the result is the title of the
    message box it ends with.  Entries that do not belong to the class of
    the timer make the lookup of the entry raise, which is reported like
    any other failure. *)
Definition save_settings (entries : settings_entries) (now : string)
  : M world string :=
  try_except
    (t ← on_app (get app_timer);
     if is_revision t then
       match entries with
       | RevisionEntries duration =>
           if bool_decide (duration ≤ 0) then mret "Invalid Input"
           else
             success ← on_app (on_timer (timer_update_config
                                           {[ "duration" := duration ]}));
             if (success : bool) then mret "Settings Saved" else mret "Error"
       | PomodoroEntries _ _ _ => raise (KeyError "duration")
       end
     else
       match entries with
       | PomodoroEntries work shortbreak longbreak =>
           if bool_decide (work ≤ 0) || bool_decide (shortbreak ≤ 0)
              || bool_decide (longbreak ≤ 0)
           then mret "Invalid Input"
           else if bool_decide (work > 120) then mret "Invalid Input"
           else
             success ← on_app (on_timer (timer_update_config
                         {[ "work_duration" := work;
                            "short_break" := shortbreak;
                            "long_break" := longbreak;
                            "sessions_until_long_break" := 4 ]}));
             dm ← on_app (get data_manager);
             t' ← on_app (get app_timer);
             on_disk (Data.save_timer_data dm t' now);;
             if (success : bool) then mret "Settings Saved" else mret "Error"
       | RevisionEntries _ => raise (KeyError "work_duration")
       end)
    (λ _, mret "Error").

End App.

(** The handlers that do not replace [self.timer], as events of the
    application. *)
Inductive event : Type :=
  | EvStart
  | EvPause
  | EvReset
  | EvSessionComplete (now saved_at : string)
  | EvSaveSettings (entries : settings_entries) (now : string)
  | EvSave (now : string).

Definition handle (e : event) (w : world) : world :=
  match e with
  | EvStart => (on_app App.start_timer w).1
  | EvPause => (on_app App.pause_timer w).1
  | EvReset => (on_app App.reset_timer w).1
  | EvSessionComplete now saved_at =>
      (App.handle_session_completion now saved_at w).1
  | EvSaveSettings entries now => (App.save_settings entries now w).1
  | EvSave now => (App.save_data now w).1
  end.

(** A handler that raises leaves the application as the raise found it,
    and the event loop goes on. *)
Definition run_events (es : list event) (w : world) : world :=
  foldl (λ w e, handle e w) w es.

(** ** [switch_timer] *)

Definition timer_update_config_json (v : json) : MO timer bool :=
  λ t, match t with
       | TPomodoro p =>
           match pomodoro_update_config_json v p with
           | Some (p', o) => Some (TPomodoro p', o)
           | None => None
           end
       | TStudy s =>
           match pomodoro_update_config_json v (study_base s) with
           | Some (p', o) => Some (TStudy (set_study_base p' s), o)
           | None => None
           end
       | TRevision r =>
           match revision_update_config_json v r with
           | Some (r', o) => Some (TRevision r', o)
           | None => None
           end
       end.

(** [self.timer._total_sessions = n] and
    [self.timer._completed_sessions = l]. *)
Definition timer_set_total_sessions (n : Z) (t : timer) : timer :=
  match t with
  | TPomodoro p => TPomodoro (set_total_sessions n p)
  | TStudy s => TStudy (set_study_base (set_total_sessions n (study_base s)) s)
  | TRevision r =>
      TRevision (Revision.set_counters (r_sessions_completed r) n r)
  end.

Definition timer_set_completed_sessions (l : list session_record) (t : timer)
  : timer :=
  match t with
  | TPomodoro p => TPomodoro (set_completed_sessions l p)
  | TStudy s =>
      TStudy (set_study_base (set_completed_sessions l (study_base s)) s)
  | TRevision r => TRevision (Revision.set_completed l r)
  end.

Definition on_timer_o {A} (m : MO timer A) : MO PomodoroApplication A :=
  λ a, match m (app_timer a) with
       | Some (t', o) => Some (set_app_timer t' a, o)
       | None => None
       end.

Module Switch.

Definition restore_config (saved_data : json) : MO PomodoroApplication unit :=
  b ← liftM (eval (λ _, contains "timer_config" saved_data));
  if (b : bool) then
    v ← liftM (eval (λ _, json_getitem saved_data "timer_config"));
    on_timer_o (timer_update_config_json v);;
    mret tt
  else mret tt.

Definition restore_total (saved_data : json) : MO PomodoroApplication unit :=
  b ← liftM (eval (λ _, contains "sessions_completed" saved_data));
  if (b : bool) then
    v ← liftM (eval (λ _, json_getitem saved_data "sessions_completed"));
    n ← typed (as_int v);
    liftM (on_timer (modify (timer_set_total_sessions n)))
  else mret tt.

Definition restore_sessions (saved_data : json)
  : MO PomodoroApplication unit :=
  b ← liftM (eval (λ _, contains "completed_sessions" saved_data));
  if (b : bool) then
    v ← liftM (eval (λ _, json_getitem saved_data "completed_sessions"));
    l ← typed (sessions_of_json v);
    liftM (on_timer (modify (timer_set_completed_sessions l)))
  else mret tt.

(** [switch_timer]; [st] is the store the data manager reads.  No
    exception is caught here. *)
Definition switch_timer (st : store) : MO PomodoroApplication unit :=
  choice ← liftM (get timer_type_var);
  dm ← liftM (get data_manager);
  saved_data ← liftM (eval (λ _, Data.load_timer_data dm st));
  liftM (if bool_decide (choice = "Pomodoro")
         then modify (set_app_timer (TPomodoro PomodoroTimer_default))
         else if bool_decide (choice = "Revision")
         then modify (set_app_timer (TRevision RevisionTimer_default))
         else mret tt);;
  if truthy saved_data then
    restore_config saved_data;;
    restore_total saved_data;;
    restore_sessions saved_data
  else mret tt.

End Switch.

(** The application's own flag says what the timer's flag says. *)
Definition flags_agree (w : world) : Prop :=
  is_timer_active (app w) = timer_is_running (app_timer (app w)).

(** What every handler keeps. *)
Definition app_frame (w w' : world) : Prop :=
  data_manager (app w') = data_manager (app w)
  ∧ timer_type_var (app w') = timer_type_var (app w)
  ∧ is_pomodoro (app_timer (app w')) = is_pomodoro (app_timer (app w)).

(** The work records of the history are numbered 1, 2, ... up to the work
    counter, and no record carries a number outside 0 .. counter. *)
Definition numbered (t : PomodoroTimer) : Prop :=
  rec_session_number <$> work_records (_completed_sessions t)
    = seqZ 1 (_sessions_completed t)
  ∧ 0 ≤ _sessions_completed t
  ∧ Forall (λ r, 0 ≤ rec_session_number r ≤ _sessions_completed t)
      (_completed_sessions t).



(** The duration the configuration [c] gives for a session type: the entry
    of that type, and the work entry for a type outside the three. *)
Definition configured_duration (c : gmap string Z) (session_type : string)
    (d : Z) : Prop :=
  (session_type = "work" → c !! "work_duration" = Some d)
  ∧ (session_type = "short_break" → c !! "short_break" = Some d)
  ∧ (session_type = "long_break" → c !! "long_break" = Some d)
  ∧ (session_type ∉ _session_types → c !! "work_duration" = Some d).

(** * Properties *)

(** Unfold the monad down to state-passing. *)
Ltac unfold_M :=
  unfold mbind, mret, M_bind, M_ret, outcome_bind, outcome_ret,
    eval, get, modify, raise, try_except, catch in *.

(** Reduce the attribute reads of a timer built by attribute writes. *)
Ltac attrs :=
  cbn [_name _is_running _total_sessions _current_time _timer_config
       _completed_sessions _current_session_type _sessions_completed
       _remaining_time set_is_running set_total_sessions set_timer_config
       set_completed_sessions set_current_session_type
       set_sessions_completed set_remaining_time fst snd] in *.

(** ** [PomodoroTimer.update_config] *)

Section update_config.
Variables (t : PomodoroTimer) (new_config : gmap string Z).

Lemma update_config_no_work :
  new_config !! "work_duration" = None →
  Pomodoro.update_config new_config t = (t, Raise (KeyError "work_duration")).
Proof.
  intros Hw. unfold Pomodoro.update_config, getitem. unfold_M.
  by rewrite Hw.
Qed.

Lemma update_config_bad_work w :
  new_config !! "work_duration" = Some w → w ≤ 0 →
  Pomodoro.update_config new_config t = (t, Ret false).
Proof.
  intros Hw Hle. unfold Pomodoro.update_config, getitem. unfold_M.
  rewrite Hw. by rewrite bool_decide_true.
Qed.

Lemma update_config_no_short w :
  new_config !! "work_duration" = Some w → 0 < w →
  new_config !! "short_break" = None →
  Pomodoro.update_config new_config t = (t, Raise (KeyError "short_break")).
Proof.
  intros Hw Hpos Hb. unfold Pomodoro.update_config, getitem. unfold_M.
  rewrite Hw, bool_decide_false by lia. by rewrite Hb.
Qed.

Lemma update_config_bad_short w b :
  new_config !! "work_duration" = Some w →
  new_config !! "short_break" = Some b → b ≤ 0 →
  Pomodoro.update_config new_config t = (t, Ret false).
Proof.
  intros Hw Hb Hle. destruct (decide (w ≤ 0)) as [Hw0|Hw0].
  { by eapply update_config_bad_work. }
  unfold Pomodoro.update_config, getitem. unfold_M.
  rewrite Hw, bool_decide_false by done.
  rewrite Hb. by rewrite bool_decide_true.
Qed.

Lemma update_config_good w b :
  new_config !! "work_duration" = Some w →
  new_config !! "short_break" = Some b → 0 < w → 0 < b →
  Pomodoro.update_config new_config t = (updated t new_config w, Ret true).
Proof.
  intros Hw Hb Hw0 Hb0. unfold Pomodoro.update_config, getitem, updated.
  unfold_M. rewrite Hw, bool_decide_false by lia.
  rewrite Hb, bool_decide_false by lia. simpl.
  destruct (_is_running t); [done|].
  change (_timer_config (set_timer_config ?c t)) with c.
  by rewrite (lookup_union_Some_l _ _ _ _ Hw).
Qed.
End update_config.

(** C1, as stated, fails: a partial dictionary that leaves out
    [work_duration] makes [update_config] raise [KeyError] instead of
    merging the supplied key. *)
Lemma update_config_partial_raises :
  Pomodoro.update_config {[ "long_break" := 20 ]} PomodoroTimer_default
  = (PomodoroTimer_default, Raise (KeyError "work_duration")).
Proof. by apply update_config_no_work. Qed.

(** C1 (amended): when [new_config] supplies both [work_duration] and
    [short_break], [update_config] does not raise; it returns [False], the
    timer untouched, when one of the two is [<= 0]; otherwise it returns
    [True], the configuration becomes the old one overridden by exactly the
    supplied keys, and [remaining_time] becomes the new work duration times
    60 if the timer is not running and stays as it was if it is running.
    Nothing else of the timer changes. *)
Theorem update_config_with_both_keys t new_config w b :
  new_config !! "work_duration" = Some w →
  new_config !! "short_break" = Some b →
  (w ≤ 0 ∨ b ≤ 0 → Pomodoro.update_config new_config t = (t, Ret false))
  ∧ (0 < w → 0 < b →
     ∃ t', Pomodoro.update_config new_config t = (t', Ret true)
       ∧ _timer_config t' = new_config ∪ _timer_config t
       ∧ (∀ k, _timer_config t' !! k =
               match new_config !! k with
               | Some v => Some v
               | None => _timer_config t !! k
               end)
       ∧ _remaining_time t' =
           (if _is_running t then _remaining_time t else w * 60)
       ∧ _timer_config t' !! "work_duration" = Some w
       ∧ _is_running t' = _is_running t
       ∧ _current_session_type t' = _current_session_type t
       ∧ _sessions_completed t' = _sessions_completed t
       ∧ _total_sessions t' = _total_sessions t
       ∧ _completed_sessions t' = _completed_sessions t).
Proof.
  intros Hw Hb. split.
  - intros [Hle|Hle].
    + by eapply update_config_bad_work.
    + by eapply update_config_bad_short.
  - intros Hw0 Hb0. exists (updated t new_config w).
    split; [by eapply update_config_good|].
    unfold updated. destruct (_is_running t) eqn:Hrun; simpl;
      rewrite ?Hrun; repeat split; try done;
      try (intros k; rewrite lookup_union; by destruct (new_config !! k),
             (_timer_config t !! k));
      by apply lookup_union_Some_l.
Qed.

Lemma update_config_with_both_keys_witness :
  ∃ t', Pomodoro.update_config
          {[ "work_duration" := 30; "short_break" := 10 ]}
          PomodoroTimer_default = (t', Ret true)
        ∧ _remaining_time t' = 1800.
Proof.
  destruct (update_config_with_both_keys PomodoroTimer_default
              {[ "work_duration" := 30; "short_break" := 10 ]} 30 10)
    as [_ H]; [done|done|].
  destruct H as (t' & Ht' & _ & _ & Hrem & _); [lia|lia|].
  exists t'. split; [exact Ht'|exact Hrem].
Defined.

(** C8: with [work_duration] and [short_break] both supplied and one of
    them [<= 0], [update_config] returns [False] and the timer, so its
    configuration and its [remaining_time], is exactly as before. *)
Theorem update_config_invalid_unchanged t new_config w b :
  new_config !! "work_duration" = Some w →
  new_config !! "short_break" = Some b →
  w ≤ 0 ∨ b ≤ 0 →
  ∃ t', Pomodoro.update_config new_config t = (t', Ret false)
    ∧ _timer_config t' = _timer_config t
    ∧ _remaining_time t' = _remaining_time t
    ∧ t' = t.
Proof.
  intros Hw Hb Hle. exists t. split; [|done].
  destruct Hle; [by eapply update_config_bad_work
                |by eapply update_config_bad_short].
Qed.

Lemma update_config_invalid_unchanged_witness :
  ∃ t', Pomodoro.update_config
          {[ "work_duration" := 25; "short_break" := 0 ]}
          PomodoroTimer_default = (t', Ret false)
        ∧ _timer_config t' = _timer_config PomodoroTimer_default
        ∧ _remaining_time t' = _remaining_time PomodoroTimer_default
        ∧ t' = PomodoroTimer_default.
Proof.
  apply (update_config_invalid_unchanged PomodoroTimer_default
           {[ "work_duration" := 25; "short_break" := 0 ]} 25 0);
    [done|done|right; lia].
Defined.

(** ** [get_next_session_type] and [complete_session] on the cyclic timer *)

Lemma get_session_duration_total ty t :
  config_complete (_timer_config t) →
  ∃ d, Pomodoro._get_session_duration ty t = Ret d.
Proof.
  intros ([w Hw] & [b Hb] & [l Hl] & _).
  unfold Pomodoro._get_session_duration, getitem.
  rewrite Hw, Hb, Hl. repeat case_bool_decide; eauto.
Qed.

(** [get_next_session_type] reads the session type, the work counter and
    the cycle length, and nothing else. *)
Lemma get_next_session_type_ext t1 t2 :
  _current_session_type t1 = _current_session_type t2 →
  _sessions_completed t1 = _sessions_completed t2 →
  _timer_config t1 = _timer_config t2 →
  Pomodoro.get_next_session_type t1 = Pomodoro.get_next_session_type t2.
Proof.
  intros Hty Hsc Hc. unfold Pomodoro.get_next_session_type.
  by rewrite Hty, Hsc, Hc.
Qed.

(** The function itself, on any timer with a cycle length [n >= 1]. *)
Lemma get_next_session_type_spec t n :
  _timer_config t !! "sessions_until_long_break" = Some n → 1 ≤ n →
  (_current_session_type t = "work" →
     (_sessions_completed t + 1) `mod` n = 0 →
     Pomodoro.get_next_session_type t = Ret "long_break")
  ∧ (_current_session_type t = "work" →
     (_sessions_completed t + 1) `mod` n ≠ 0 →
     Pomodoro.get_next_session_type t = Ret "short_break")
  ∧ (_current_session_type t = "short_break"
     ∨ _current_session_type t = "long_break" →
     Pomodoro.get_next_session_type t = Ret "work").
Proof.
  intros Hn Hpos.
  unfold Pomodoro.get_next_session_type, getitem, Pomodoro.py_mod.
  unfold_M. rewrite Hn. rewrite (bool_decide_false (n = 0)) by lia.
  split_and!.
  - intros -> Hm. rewrite bool_decide_true by done.
    by rewrite bool_decide_true.
  - intros -> Hm. rewrite bool_decide_true by done.
    by rewrite bool_decide_false.
  - intros [-> | ->]; by rewrite bool_decide_false.
Qed.

Lemma get_next_session_type_total t :
  config_complete (_timer_config t) →
  ∃ next, Pomodoro.get_next_session_type t = Ret next.
Proof.
  intros (_ & _ & _ & n & Hn & Hn0).
  unfold Pomodoro.get_next_session_type, getitem, Pomodoro.py_mod. unfold_M.
  rewrite Hn, (bool_decide_false (n = 0)) by done.
  repeat case_bool_decide; eauto.
Qed.

Lemma counted_fields now d t :
  let ty := _current_session_type t in
  let sc := _sessions_completed t in
  let worked := bool_decide (ty = "work") in
  _timer_config (counted now d t) = _timer_config t
  ∧ _current_session_type (counted now d t) = ty
  ∧ _sessions_completed (counted now d t) = (if worked then sc + 1 else sc)
  ∧ _completed_sessions (counted now d t) =
      (_completed_sessions t
       ++ [SessionRecord ty d now (if worked then sc + 1 else sc)])%list
  ∧ _total_sessions (counted now d t) =
      (if worked then _total_sessions t + 1 else _total_sessions t)
  ∧ _is_running (counted now d t) = _is_running t.
Proof. unfold counted. simpl. by case_bool_decide. Qed.

Lemma get_session_duration_ext ty t1 t2 :
  _timer_config t1 = _timer_config t2 →
  Pomodoro._get_session_duration ty t1 = Pomodoro._get_session_duration ty t2.
Proof. intros H. unfold Pomodoro._get_session_duration. by rewrite H. Qed.

Lemma complete_session_ok now t d next d' :
  Pomodoro._get_session_duration (_current_session_type t) t = Ret d →
  Pomodoro.get_next_session_type (counted now d t) = Ret next →
  Pomodoro._get_session_duration next t = Ret d' →
  Pomodoro.complete_session now t
  = (set_remaining_time (d' * 60)
       (set_current_session_type next (counted now d t)), Ret ()).
Proof.
  intros Hd Hnext Hd'. unfold Pomodoro.complete_session. unfold_M.
  rewrite Hd. revert Hnext. unfold counted.
  case_bool_decide; simpl; intros ->; simpl.
  - change (Pomodoro._get_session_duration next ?x)
      with (Pomodoro._get_session_duration next t). by rewrite Hd'.
  - change (Pomodoro._get_session_duration next ?x)
      with (Pomodoro._get_session_duration next t). by rewrite Hd'.
Qed.

(** On a complete configuration none of the three lookups raises. *)
Lemma complete_session_total now t :
  config_complete (_timer_config t) →
  ∃ d next d',
    Pomodoro._get_session_duration (_current_session_type t) t = Ret d
    ∧ Pomodoro.get_next_session_type (counted now d t) = Ret next
    ∧ Pomodoro._get_session_duration next t = Ret d'
    ∧ Pomodoro.complete_session now t
      = (set_remaining_time (d' * 60)
           (set_current_session_type next (counted now d t)), Ret ()).
Proof.
  intros Hc.
  destruct (get_session_duration_total (_current_session_type t) t Hc)
    as [d Hd].
  destruct (counted_fields now d t) as (Hcc & _).
  destruct (get_next_session_type_total (counted now d t)) as [next Hnext].
  { by rewrite Hcc. }
  destruct (get_session_duration_total next t Hc) as [d' Hd'].
  exists d, next, d'. split_and!; try done. by apply complete_session_ok.
Qed.

Lemma get_session_duration_configured ty t d :
  Pomodoro._get_session_duration ty t = Ret d →
  configured_duration (_timer_config t) ty d.
Proof.
  unfold Pomodoro._get_session_duration, getitem, configured_duration,
    _session_types.
  repeat case_bool_decide; subst;
    (destruct (_timer_config t !! _) as [v|] eqn:Hv; [|done]);
    intros [= <-]; split_and!; try done; intros Hnin; set_solver.
Qed.

Lemma get_next_session_type_explicit u next :
  Pomodoro.get_next_session_type u = Ret next →
  (_current_session_type u = "work" →
   ∀ n, _timer_config u !! "sessions_until_long_break" = Some n →
        next = if bool_decide ((_sessions_completed u + 1) `mod` n = 0)
               then "long_break" else "short_break")
  ∧ (_current_session_type u ≠ "work" → next = "work").
Proof.
  unfold Pomodoro.get_next_session_type, getitem, Pomodoro.py_mod.
  unfold_M. case_bool_decide as Hty.
  - destruct (_timer_config u !! "sessions_until_long_break") as [n|];
      [|done].
    case_bool_decide; [done|]. intros Hnext. split; [|done].
    intros _ n' [= <-]. by case_bool_decide; injection Hnext as <-.
  - intros [= <-]. by split.
Qed.

(** C5, as stated, fails: [update_config] accepts a cycle length of 0,
    and on the timer it leaves [complete_session] raises at [%] after the
    record is appended and both counters are raised: the session type is
    not advanced and the remaining time is not reset. *)
Lemma complete_session_zero_cycle_raises :
  ∃ t,
    Pomodoro.update_config
      {[ "work_duration" := 25; "short_break" := 5;
         "sessions_until_long_break" := 0 ]} PomodoroTimer_default
    = (t, Ret true)
    ∧ let r := Pomodoro.complete_session "2024-01-01 09:25:00" t in
      r.2 = Raise ZeroDivisionError
      ∧ _completed_sessions r.1
        = [SessionRecord "work" 25 "2024-01-01 09:25:00" 1]
      ∧ _sessions_completed r.1 = 1
      ∧ _current_session_type r.1 = "work"
      ∧ Pomodoro.get_next_session_type r.1 = Raise ZeroDivisionError
      ∧ ¬ (∃ next, Pomodoro.get_next_session_type r.1 = Ret next
                   ∧ _current_session_type r.1 = next).
Proof.
  eexists. split; [by vm_compute|]. cbv zeta.
  split_and!; try by vm_compute.
  intros (next & Hnext & _). by vm_compute in Hnext.
Qed.

(** C5 (amended): on a timer whose configuration has its four keys and a
    cycle length other than zero, [complete_session] returns normally and
    appends exactly one record, of the finished type, whose duration is
    the entry of the configuration for that type and whose session number
    is counter + 1 for a work session and the counter itself otherwise;
    both counters go up by one exactly when the finished type is work;
    the new session type is what [get_next_session_type] answers once the
    counters are updated (after work, a long break when the new counter
    plus one is a multiple of the cycle length and a short break
    otherwise; after anything else, work), and [remaining_time] is the
    entry of the configuration for the new type times 60. *)
Theorem cyclic_complete_session_spec now t :
  config_complete (_timer_config t) →
  let ty := _current_session_type t in
  let sc := _sessions_completed t in
  let worked := bool_decide (ty = "work") in
  ∃ t' d next d',
    Pomodoro.complete_session now t = (t', Ret ())
    ∧ configured_duration (_timer_config t) ty d
    ∧ Pomodoro._get_session_duration ty t = Ret d
    ∧ _completed_sessions t' =
        (_completed_sessions t
         ++ [SessionRecord ty d now (if worked then sc + 1 else sc)])%list
    ∧ _sessions_completed t' = (if worked then sc + 1 else sc)
    ∧ _total_sessions t' =
        (if worked then _total_sessions t + 1 else _total_sessions t)
    ∧ (∀ u, _current_session_type u = ty →
            _sessions_completed u = _sessions_completed t' →
            _timer_config u = _timer_config t →
            Pomodoro.get_next_session_type u = Ret next)
    ∧ (ty = "work" →
       ∀ n, _timer_config t !! "sessions_until_long_break" = Some n →
            next = if bool_decide ((sc + 1 + 1) `mod` n = 0)
                   then "long_break" else "short_break")
    ∧ (ty ≠ "work" → next = "work")
    ∧ _current_session_type t' = next
    ∧ configured_duration (_timer_config t) next d'
    ∧ Pomodoro._get_session_duration next t' = Ret d'
    ∧ _remaining_time t' = d' * 60
    ∧ _timer_config t' = _timer_config t
    ∧ _is_running t' = _is_running t.
Proof.
  intros Hc ty sc worked.
  destruct (complete_session_total now t Hc)
    as (d & next & d' & Hd & Hnext & Hd' & Hrun).
  destruct (counted_fields now d t)
    as (Hcc & Hct & Hcs & Hcl & Hctot & Hcr).
  fold ty sc worked in Hct, Hcs, Hcl, Hctot.
  destruct (get_next_session_type_explicit _ _ Hnext) as [Hwork Hother].
  rewrite Hct, Hcs, Hcc in Hwork. rewrite Hct in Hother.
  eexists _, d, next, d'. split; [exact Hrun|].
  attrs. split_and!; try done.
  - by apply get_session_duration_configured.
  - intros u Hu1 Hu2 Hu3. rewrite <- Hnext.
    apply get_next_session_type_ext; congruence.
  - intros Hty n Hn. rewrite (Hwork Hty n Hn). unfold worked.
    by rewrite (bool_decide_true (ty = "work")) by done.
  - by apply (get_session_duration_configured next t).
  - rewrite <- Hd'. by apply get_session_duration_ext.
Qed.

Lemma default_config_complete :
  config_complete (_timer_config PomodoroTimer_default).
Proof.
  unfold config_complete. split_and!; [by eexists..|].
  exists 4. by split.
Qed.

Lemma cyclic_complete_session_spec_witness :
  ∃ t', Pomodoro.complete_session "2024-01-01 09:25:00" PomodoroTimer_default
        = (t', Ret ())
    ∧ _completed_sessions t' =
        [SessionRecord "work" 25 "2024-01-01 09:25:00" 1]
    ∧ Pomodoro.get_current_session_info t' = ("short_break", 300, 1).
Proof.
  destruct (cyclic_complete_session_spec "2024-01-01 09:25:00"
              PomodoroTimer_default
              default_config_complete)
    as (t' & d & next & d' & Hrun & _).
  exists t'. split; [exact Hrun|].
  vm_compute in Hrun. injection Hrun as <-. by vm_compute.
Defined.

(** With a zero cycle length the call raises at [%], after the record is
    appended and the counters are raised, and before the session type and
    the remaining time are written. *)
Example complete_session_zero_cycle :
  let t := set_timer_config
             (<["sessions_until_long_break" := 0]>
                (_timer_config PomodoroTimer_default))
             PomodoroTimer_default in
  let r := Pomodoro.complete_session "2024-01-01 09:25:00" t in
  r.2 = Raise ZeroDivisionError
  ∧ _completed_sessions r.1
    = [SessionRecord "work" 25 "2024-01-01 09:25:00" 1]
  ∧ Pomodoro.get_current_session_info r.1 = ("work", 1500, 1).
Proof. by vm_compute. Qed.

(** [complete_session] by cases on where it can raise. *)
Lemma complete_session_unfold now t :
  Pomodoro.complete_session now t =
  match Pomodoro._get_session_duration (_current_session_type t) t with
  | Raise e => (t, Raise e)
  | Ret d =>
      match Pomodoro.get_next_session_type (counted now d t) with
      | Raise e => (counted now d t, Raise e)
      | Ret next =>
          let t2 := set_current_session_type next (counted now d t) in
          match Pomodoro._get_session_duration next t with
          | Raise e => (t2, Raise e)
          | Ret d' => (set_remaining_time (d' * 60) t2, Ret ())
          end
      end
  end.
Proof.
  unfold Pomodoro.complete_session. unfold_M.
  destruct (Pomodoro._get_session_duration _ t) as [d|e]; [|done].
  unfold counted. case_bool_decide; simpl.
  - destruct (Pomodoro.get_next_session_type _) as [next|e]; [|done]. simpl.
    change (Pomodoro._get_session_duration next ?x)
      with (Pomodoro._get_session_duration next t).
    by destruct (Pomodoro._get_session_duration next t).
  - destruct (Pomodoro.get_next_session_type _) as [next|e]; [|done]. simpl.
    change (Pomodoro._get_session_duration next ?x)
      with (Pomodoro._get_session_duration next t).
    by destruct (Pomodoro._get_session_duration next t).
Qed.

Lemma get_next_session_type_valid t next :
  Pomodoro.get_next_session_type t = Ret next → next ∈ _session_types.
Proof.
  unfold Pomodoro.get_next_session_type, _session_types. unfold_M.
  case_bool_decide.
  - destruct (getitem _ _) as [n|]; [|done].
    destruct (Pomodoro.py_mod _ _) as [r|]; [|done].
    case_bool_decide; intros [= <-]; set_solver.
  - intros [= <-]. set_solver.
Qed.

Lemma complete_session_type_valid now t :
  _current_session_type t ∈ _session_types →
  _current_session_type (Pomodoro.complete_session now t).1 ∈ _session_types.
Proof.
  intros Hin. rewrite complete_session_unfold.
  destruct (Pomodoro._get_session_duration _ t) as [d|e]; [|done].
  destruct (counted_fields now d t) as (_ & Hty & _).
  destruct (Pomodoro.get_next_session_type _) as [next|e] eqn:Hnext; simpl.
  - apply get_next_session_type_valid in Hnext.
    by destruct (Pomodoro._get_session_duration next t).
  - by rewrite Hty.
Qed.

(** What a call of [update_config] that returned [True] was given. *)
Lemma update_config_true_inv nc t t' :
  Pomodoro.update_config nc t = (t', Ret true) →
  ∃ w b, nc !! "work_duration" = Some w ∧ nc !! "short_break" = Some b
         ∧ 0 < w ∧ 0 < b ∧ t' = updated t nc w.
Proof.
  intros Hrun.
  destruct (nc !! "work_duration") as [w|] eqn:Hw;
    [|by rewrite update_config_no_work in Hrun].
  destruct (decide (w ≤ 0));
    [by rewrite (update_config_bad_work _ _ w) in Hrun|].
  destruct (nc !! "short_break") as [b|] eqn:Hb;
    [|by rewrite (update_config_no_short _ _ w) in Hrun by (done || lia)].
  destruct (decide (b ≤ 0));
    [by rewrite (update_config_bad_short _ _ w b) in Hrun|].
  rewrite (update_config_good _ _ w b) in Hrun by (done || lia).
  injection Hrun as <-. exists w, b. split_and!; (done || lia).
Qed.

Lemma update_config_type nc t :
  _current_session_type (Pomodoro.update_config nc t).1
  = _current_session_type t.
Proof.
  destruct (Pomodoro.update_config nc t) as [t' [[]|e]] eqn:Hrun; simpl.
  - apply update_config_true_inv in Hrun as (w & b & _ & _ & _ & _ & ->).
    unfold updated. by destruct (_is_running t).
  - unfold Pomodoro.update_config, getitem in Hrun. unfold_M.
    destruct (nc !! "work_duration") as [w|]; [|by injection Hrun as <-].
    case_bool_decide; [by injection Hrun as <-|].
    destruct (nc !! "short_break") as [b|]; [|by injection Hrun as <-].
    case_bool_decide; [by injection Hrun as <-|].
    simpl in Hrun. destruct (_is_running t); [done|].
    by destruct (_ !! "work_duration").
  - unfold Pomodoro.update_config, getitem in Hrun. unfold_M.
    destruct (nc !! "work_duration") as [w|]; [|by injection Hrun as <-].
    case_bool_decide; [by injection Hrun as <-|].
    destruct (nc !! "short_break") as [b|]; [|by injection Hrun as <-].
    case_bool_decide; [by injection Hrun as <-|].
    simpl in Hrun. destruct (_is_running t); [done|].
    destruct (_ !! "work_duration"); [done|]. by injection Hrun as <-.
Qed.

(** ** The session invariant along sequences of operations *)

Lemma step_type_valid guard o t t' :
  PomodoroTrace.step guard o t = Some t' →
  _current_session_type t ∈ _session_types →
  _current_session_type t' ∈ _session_types.
Proof.
  destruct o as [| |now|nc]; simpl.
  - by intros [= <-].
  - by intros [= <-].
  - intros [= <-]. apply complete_session_type_valid.
  - destruct (guard t nc); [|done].
    pose proof (update_config_type nc t) as Hty.
    destruct (Pomodoro.update_config nc t) as [t'' [[]|e]]; try done.
    intros [= <-]. simpl in Hty. by rewrite Hty.
Qed.

Lemma run_type_valid guard ops : ∀ t t',
  PomodoroTrace.run guard ops t = Some t' →
  _current_session_type t ∈ _session_types →
  _current_session_type t' ∈ _session_types.
Proof.
  induction ops as [|o ops IH]; simpl; intros t t'.
  - by intros [= <-].
  - destruct (PomodoroTrace.step guard o t) as [t1|] eqn:Hstep; [|done].
    intros Hrun Hin. eapply IH; [done|]. by eapply step_type_valid.
Qed.

Lemma get_session_duration_pos ty t w b l :
  _timer_config t !! "work_duration" = Some w →
  _timer_config t !! "short_break" = Some b →
  _timer_config t !! "long_break" = Some l →
  0 < w → 0 < b → 0 < l →
  ∃ d, Pomodoro._get_session_duration ty t = Ret d ∧ 0 < d.
Proof.
  intros Hw Hb Hl ???. unfold Pomodoro._get_session_duration, getitem.
  rewrite Hw, Hb, Hl. repeat case_bool_decide; eauto.
Qed.

Lemma timer_ok_bounds t :
  timer_ok t →
  ∃ d, Pomodoro._get_session_duration (_current_session_type t) t = Ret d
       ∧ 0 ≤ _remaining_time t ≤ d * 60.
Proof.
  intros ((w & b & l & n & Hw & Hb & Hl & _ & ? & ? & ?) & _ & d & Hd & Hrem).
  destruct (get_session_duration_pos (_current_session_type t) t w b l)
    as (d0 & Hd0 & Hpos); try done.
  exists d. split; [done|]. rewrite Hd in Hd0. injection Hd0 as ->. lia.
Qed.

Lemma init_timer_ok wd sb lb :
  0 < wd → 0 < sb → 0 < lb → timer_ok (PomodoroTimer_init wd sb lb).
Proof.
  intros ???. split_and!.
  - exists wd, sb, lb, 4. by split_and!.
  - unfold _session_types. simpl. set_solver.
  - by exists wd.
Qed.

Lemma complete_session_ok_preserved now t :
  timer_ok t → timer_ok (Pomodoro.complete_session now t).1.
Proof.
  intros (Hcfg & Hty & d & Hd & Hrem).
  pose proof (complete_session_type_valid now t Hty) as Hty'.
  revert Hty'. rewrite complete_session_unfold, Hd.
  destruct (counted_fields now d t) as (Hcc & Hct & _).
  destruct Hcfg as (w & b & l & n & Hw & Hb & Hl & Hn & ? & ? & ?).
  destruct (Pomodoro.get_next_session_type _) as [next|e]; simpl.
  - destruct (get_session_duration_pos next t w b l) as (d' & Hd' & _);
      try done.
    rewrite Hd'. attrs. intros Hnext. split_and!; attrs.
    + rewrite Hcc. exists w, b, l, n. by split_and!.
    + done.
    + exists d'. split; [|done]. rewrite <- Hd'.
      by apply get_session_duration_ext.
  - intros _. split_and!; attrs.
    + rewrite Hcc. exists w, b, l, n. by split_and!.
    + by rewrite Hct.
    + exists d. rewrite Hct. split.
      * rewrite <- Hd. by apply get_session_duration_ext.
      * rewrite <- Hrem. unfold counted. by case_bool_decide.
Qed.

Lemma update_config_ok_preserved nc t t' :
  PomodoroTrace.idle_work_update t nc = true →
  Pomodoro.update_config nc t = (t', Ret true) →
  timer_ok t → timer_ok t'.
Proof.
  unfold PomodoroTrace.idle_work_update.
  rewrite !andb_true_iff, negb_true_iff, bool_decide_eq_true.
  intros [[Hidle Hwork] Hlong] Hrun ((w0 & b0 & l0 & n0 & Hw0 & Hb0 & Hl0
    & Hn0 & ? & ? & ?) & Hty & _).
  apply update_config_true_inv in Hrun as (w & b & Hw & Hb & ? & ? & ->).
  unfold updated. rewrite Hidle. split_and!; simpl.
  - assert (∃ l, (nc ∪ _timer_config t) !! "long_break" = Some l ∧ 0 < l)
      as (l & Hl & ?).
    { destruct (nc !! "long_break") as [l|] eqn:Hl.
      - exists l. rewrite bool_decide_eq_true in Hlong.
        split; [by apply lookup_union_Some_l|done].
      - exists l0. split; [|done]. by rewrite lookup_union_r. }
    assert (∃ n, (nc ∪ _timer_config t) !! "sessions_until_long_break"
                 = Some n) as (n & Hn).
    { destruct (nc !! "sessions_until_long_break") as [n|] eqn:Hn.
      - exists n. by apply lookup_union_Some_l.
      - exists n0. by rewrite lookup_union_r. }
    exists w, b, l, n.
    split_and!; try done; by apply lookup_union_Some_l.
  - done.
  - exists w. split; [|done]. rewrite Hwork.
    unfold Pomodoro._get_session_duration, getitem. simpl.
    by rewrite (lookup_union_Some_l _ _ _ _ Hw).
Qed.

Lemma step_ok_preserved o t t' :
  PomodoroTrace.step PomodoroTrace.idle_work_update o t = Some t' →
  timer_ok t → timer_ok t'.
Proof.
  destruct o as [| |now|nc]; simpl.
  - by intros [= <-].
  - by intros [= <-].
  - intros [= <-]. apply complete_session_ok_preserved.
  - destruct (PomodoroTrace.idle_work_update t nc) eqn:Hg; [|done].
    destruct (Pomodoro.update_config nc t) as [t'' [[]|e]] eqn:Hrun;
      try done.
    intros [= <-]. by eapply update_config_ok_preserved.
Qed.

Lemma run_ok_preserved ops : ∀ t t',
  PomodoroTrace.run PomodoroTrace.idle_work_update ops t = Some t' →
  timer_ok t → timer_ok t'.
Proof.
  induction ops as [|o ops IH]; simpl; intros t t'.
  - by intros [= <-].
  - destruct (PomodoroTrace.step _ o t) as [t1|] eqn:Hstep; [|done].
    intros Hrun Hok. eapply IH; [done|]. by eapply step_ok_preserved.
Qed.

(** C3, as stated, fails: after a work session is completed the timer is
    in a short break with 300 seconds left; a successful [update_config]
    on the stopped timer then sets [remaining_time] to the work duration
    times 60, above the bound of the short break. *)
Lemma update_in_break_exceeds_bound :
  ∃ t, PomodoroTrace.run PomodoroTrace.any_update
         [ OpComplete "2024-01-01 09:25:00";
           OpUpdate {[ "work_duration" := 25; "short_break" := 5 ]} ]
         PomodoroTimer_default = Some t
       ∧ _current_session_type t = "short_break"
       ∧ Pomodoro._get_session_duration (_current_session_type t) t = Ret 5
       ∧ _remaining_time t = 1500
       ∧ ¬ (0 ≤ _remaining_time t ≤ 5 * 60).
Proof.
  eexists. split; [by vm_compute|]. split_and!; try by vm_compute.
  vm_compute. intros [_ H]. by apply H.
Qed.

(** The bound also fails when a running timer is given a shorter work
    duration, and when a non-positive [long_break] is accepted. *)
Example update_while_running_exceeds_bound :
  ∃ t, PomodoroTrace.run PomodoroTrace.any_update
         [ OpStart; OpUpdate {[ "work_duration" := 1; "short_break" := 5 ]} ]
         PomodoroTimer_default = Some t
       ∧ Pomodoro._get_session_duration (_current_session_type t) t = Ret 1
       ∧ _remaining_time t = 1500.
Proof. eexists. split; [by vm_compute|]. by split; vm_compute. Qed.

Example negative_long_break_accepted :
  ∃ t, PomodoroTrace.run PomodoroTrace.any_update
         [ OpUpdate {[ "work_duration" := 25; "short_break" := 5;
                       "long_break" := -15;
                       "sessions_until_long_break" := 2 ]};
           OpComplete "2024-01-01 09:25:00" ]
         PomodoroTimer_default = Some t
       ∧ _current_session_type t = "long_break"
       ∧ _remaining_time t = -900.
Proof. eexists. split; [by vm_compute|]. by split; vm_compute. Qed.

(** C3 (amended): from a timer constructed with positive durations, every
    timer reached by [start_timer], pause, [complete_session] and
    successful [update_config] calls has its session type in
    [{work, short_break, long_break}]; and when each [update_config] of the
    sequence is called on a stopped timer in a work session and supplies no
    non-positive [long_break], the reached timer also satisfies
    [0 <= remaining_time <= session_duration(current_type) * 60]. *)
Theorem session_invariant wd sb lb :
  0 < wd → 0 < sb → 0 < lb →
  (∀ ops t,
     PomodoroTrace.run PomodoroTrace.any_update ops
       (PomodoroTimer_init wd sb lb) = Some t →
     _current_session_type t ∈ _session_types)
  ∧ (∀ ops t,
     PomodoroTrace.run PomodoroTrace.idle_work_update ops
       (PomodoroTimer_init wd sb lb) = Some t →
     ∃ d, Pomodoro._get_session_duration (_current_session_type t) t = Ret d
          ∧ 0 ≤ _remaining_time t ≤ d * 60).
Proof.
  intros Hwd Hsb Hlb. split.
  - intros ops t Hrun. eapply run_type_valid; [done|].
    unfold _session_types. simpl. set_solver.
  - intros ops t Hrun. apply timer_ok_bounds.
    eapply run_ok_preserved; [done|]. by apply init_timer_ok.
Qed.

Lemma session_invariant_witness :
  ∃ t, PomodoroTrace.run PomodoroTrace.idle_work_update
         [ OpUpdate {[ "work_duration" := 50; "short_break" := 10 ]};
           OpStart; OpComplete "2024-01-01 09:50:00"; OpPause ]
         PomodoroTimer_default = Some t
       ∧ _current_session_type t ∈ _session_types
       ∧ ∃ d, Pomodoro._get_session_duration (_current_session_type t) t
              = Ret d
              ∧ 0 ≤ _remaining_time t ≤ d * 60.
Proof.
  destruct (session_invariant 25 5 15) as [Hty Hbound]; [lia|lia|lia|].
  eexists. split; [by vm_compute|]. split.
  - apply (Hty [ OpUpdate {[ "work_duration" := 50; "short_break" := 10 ]};
                 OpStart; OpComplete "2024-01-01 09:50:00"; OpPause ]).
    by vm_compute.
  - apply (Hbound
             [ OpUpdate {[ "work_duration" := 50; "short_break" := 10 ]};
               OpStart; OpComplete "2024-01-01 09:50:00"; OpPause ]).
    by vm_compute.
Defined.

(** ** The break cycle *)

(** [complete_session] asks [get_next_session_type] after the work counter
    has gone up, so the long break follows the work session that brings
    the counter to [n - 1], not to [n]. *)
Lemma complete_work_session_next now t n :
  config_complete (_timer_config t) →
  _timer_config t !! "sessions_until_long_break" = Some n → 1 ≤ n →
  _current_session_type t = "work" →
  _current_session_type (Pomodoro.complete_session now t).1 =
    (if bool_decide ((_sessions_completed t + 2) `mod` n = 0)
     then "long_break" else "short_break").
Proof.
  intros Hc Hn Hpos Hwork.
  destruct (complete_session_total now t Hc)
    as (d & next & d' & _ & Hnext & _ & ->).
  attrs.
  destruct (counted_fields now d t) as (Hcc & Hct & Hcs & _).
  rewrite Hwork, bool_decide_true in Hcs by done.
  destruct (get_next_session_type_spec (counted now d t) n)
    as (Hlong & Hshort & _); [by rewrite Hcc|done|].
  rewrite Hct, Hcs in Hlong, Hshort.
  replace (_sessions_completed t + 1 + 1)
    with (_sessions_completed t + 2) in * by lia.
  case_bool_decide.
  - rewrite Hlong in Hnext by done. by injection Hnext.
  - rewrite Hshort in Hnext by done. by injection Hnext.
Qed.

(** C4, on the code: with the default cycle length 4, the four work
    sessions completed from the initial timer are followed by
    short, short, long, short: the long break comes after the third work
    session, not after the fourth. *)
Theorem four_work_sessions_break_sequence now :
  _timer_config PomodoroTimer_default !! "sessions_until_long_break" = Some 4
  ∧ breaks_after_work 4 now PomodoroTimer_default
    = [ "short_break"; "short_break"; "long_break"; "short_break" ]
  ∧ breaks_after_work 4 now PomodoroTimer_default
    ≠ [ "short_break"; "short_break"; "short_break"; "long_break" ].
Proof.
  assert (breaks_after_work 4 now PomodoroTimer_default
          = [ "short_break"; "short_break"; "long_break"; "short_break" ])
    as Heq by (by vm_compute).
  split; [done|]. split; [done|]. by rewrite Heq.
Qed.

(** ** [RevisionTimer] *)

Lemma revision_complete_session_unfold now t :
  Revision.complete_session now t =
  (Revision.set_remaining (r_duration t)
     (Revision.set_counters (r_sessions_completed t + 1)
        (r_total_sessions t + 1)
        (Revision.set_completed
           (r_completed_sessions t
            ++ [SessionRecord "revision" (r_duration t `div` 60) now
                  (r_sessions_completed t + 1)]) t)),
   Ret ()).
Proof. done. Qed.

Lemma revision_update_config_cases nc t :
  (∃ d, nc !! "duration" = Some d ∧ 0 < d
        ∧ Revision.update_config nc t =
            (let t1 := Revision.set_duration (d * 60) t in
             if r_is_running t then t1
             else Revision.set_remaining (d * 60) t1, Ret true))
  ∨ Revision.update_config nc t = (t, Ret false).
Proof.
  unfold Revision.update_config. unfold_M.
  destruct (nc !! "duration") as [d|]; [|by right].
  case_bool_decide; [|by right]. left. exists d.
  split; [done|]. split; [lia|]. simpl. by destruct (r_is_running t).
Qed.

Lemma revision_step_whole_minutes o t :
  whole_minutes t → whole_minutes (RevisionTrace.step o t).
Proof.
  intros [d Hd]. destruct o as [| |now|nc]; simpl; try by exists d.
  destruct (revision_update_config_cases nc t)
    as [(d' & _ & _ & ->)| ->]; simpl; [|by exists d].
  exists d'. by destruct (r_is_running t).
Qed.

Lemma revision_run_whole_minutes ops : ∀ t,
  whole_minutes t → whole_minutes (RevisionTrace.run ops t).
Proof.
  induction ops as [|o ops IH]; simpl; intros t Ht; [done|].
  apply IH. by apply revision_step_whole_minutes.
Qed.

(** C9: on the revision timer [get_next_session_type] answers [revision];
    [complete_session] returns normally, appends one record, adds one to
    the session counter and to the total counter, and sets
    [remaining_time] to the configured duration ([d] minutes) times 60;
    and a timer built with [duration=60], started, after one
    [complete_session] reports [("revision", 3600, 1)]. *)
Theorem revision_complete_session_spec now t d :
  r_duration t = d * 60 →
  Revision.get_next_session_type t = "revision"
  ∧ (∃ t', Revision.complete_session now t = (t', Ret ())
       ∧ r_completed_sessions t' =
           (r_completed_sessions t
            ++ [SessionRecord "revision" d now
                  (r_sessions_completed t + 1)])%list
       ∧ r_sessions_completed t' = r_sessions_completed t + 1
       ∧ r_total_sessions t' = r_total_sessions t + 1
       ∧ Revision.get_timer_config t' !! "duration" = Some d
       ∧ r_remaining_time t' = d * 60
       ∧ r_is_running t' = r_is_running t)
  ∧ Revision.get_current_session_info
      (Revision.complete_session now
         (Revision.start_timer (RevisionTimer_init 60)).1).1
    = ("revision", 3600, 1).
Proof.
  intros Hd. split; [done|]. split; [|done].
  eexists. split; [apply revision_complete_session_unfold|].
  simpl. rewrite Hd, Z.div_mul by done. split_and!; try done.
  unfold Revision.get_timer_config. simpl.
  by rewrite Hd, Z.div_mul, lookup_singleton_eq.
Qed.

Lemma revision_complete_session_spec_witness :
  Revision.get_current_session_info
    (Revision.complete_session "2024-01-01 10:00:00"
       (Revision.start_timer RevisionTimer_default).1).1
  = ("revision", 3600, 1).
Proof.
  apply (revision_complete_session_spec "2024-01-01 10:00:00"
           RevisionTimer_default 60).
  reflexivity.
Defined.

Lemma revision_run_counters ops : ∀ t,
  r_sessions_completed t = r_total_sessions t →
  let t' := RevisionTrace.run ops t in
  r_sessions_completed t' = r_total_sessions t'
  ∧ r_total_sessions t' = r_total_sessions t + completions ops
  ∧ length (r_completed_sessions t') =
      (length (r_completed_sessions t)
       + length (filter (λ o, RevisionTrace.is_complete o = true) ops))%nat.
Proof.
  unfold completions.
  induction ops as [|o ops IH]; simpl; intros t Heq.
  { split_and!; (done || lia). }
  destruct (IH (RevisionTrace.step o t)) as (IH1 & IH2 & IH3).
  - destruct o as [| |now|nc]; simpl; try done; [lia|].
    destruct (revision_update_config_cases nc t)
      as [(d' & _ & _ & ->)| ->]; simpl; [|done].
    by destruct (r_is_running t).
  - split; [done|]. rewrite IH2, IH3. clear IH IH1 IH2 IH3.
    destruct o as [| |now|nc]; simpl;
      rewrite ?filter_cons_True, ?filter_cons_False by done; simpl;
      try (split; lia).
    + rewrite length_app. simpl. split; lia.
    + destruct (revision_update_config_cases nc t)
        as [(d' & _ & _ & ->)| ->]; simpl; [|split; lia].
      destruct (r_is_running t); simpl; split; lia.
Qed.

(** C10: in every revision timer reached from a fresh one by
    [start_timer], pause, [update_config] and [complete_session] calls,
    the session counter equals the total counter, and the third component
    of [get_current_session_info] is the number of [complete_session]
    calls made, which is also the number of records kept. *)
Theorem revision_counters_agree duration ops :
  let t := RevisionTrace.run ops (RevisionTimer_init duration) in
  r_sessions_completed t = r_total_sessions t
  ∧ (Revision.get_current_session_info t).2 = completions ops
  ∧ (Revision.get_current_session_info t).2
    = Z.of_nat (length (r_completed_sessions t)).
Proof.
  destruct (revision_run_counters ops (RevisionTimer_init duration))
    as (H1 & H2 & H3); [done|].
  simpl in *. split; [done|]. unfold completions in *.
  rewrite H2, H3. split; lia.
Qed.

(** ** [DataManager]: loading *)

Lemma load_from_backup_returns dm st :
  ∃ v, Data._load_from_backup dm st = Ret v.
Proof.
  unfold Data._load_from_backup.
  destruct (catch _ _) as [[v|]|e]; eauto.
Qed.

Lemma load_from_backup_document dm st v :
  files st !! backup_filename dm = Some (Document v) →
  backup_filename dm ∉ unreadable st →
  Data._load_from_backup dm st = Ret v.
Proof.
  intros Hf Hl. unfold Data._load_from_backup, path_exists, read_text.
  unfold_M. rewrite Hf, bool_decide_true by eauto.
  by rewrite bool_decide_false.
Qed.

(** A backup that is missing, cannot be opened or does not parse gives
    [None]. *)
Lemma load_from_backup_unusable dm st :
  files st !! backup_filename dm = None
  ∨ backup_filename dm ∈ unreadable st
  ∨ (∃ raw, files st !! backup_filename dm = Some (Unparsable raw)) →
  Data._load_from_backup dm st = Ret JNull.
Proof.
  intros Hbad. unfold Data._load_from_backup, path_exists, read_text.
  unfold_M.
  destruct (files st !! backup_filename dm) as [txt|] eqn:Hf.
  - rewrite bool_decide_true by eauto.
    case_bool_decide; [done|].
    destruct Hbad as [?|[?|[raw Hraw]]]; [done..|].
    by injection Hraw as ->.
  - rewrite bool_decide_false; [done|]. by intros [??].
Qed.

(** A key that a dictionary does not have stops the loop with [false]. *)
Lemma has_required_missing keys (m : gmap string json) key :
  key ∈ keys → m !! key = None →
  Data.has_required keys (JObj m) = Ret false.
Proof.
  intros Hin Hm. induction keys as [|k keys IH]; [by apply elem_of_nil in Hin|].
  simpl. unfold_M. case_bool_decide as Hk; [|done].
  apply IH. apply elem_of_cons in Hin as [->|]; [|done].
  rewrite Hm in Hk. by destruct Hk.
Qed.

Lemma has_required_present keys (m : gmap string json) :
  (∀ key, key ∈ keys → is_Some (m !! key)) →
  Data.has_required keys (JObj m) = Ret true.
Proof.
  induction keys as [|k keys IH]; intros Hall; [done|].
  simpl. unfold_M. rewrite bool_decide_true by (apply Hall; left).
  apply IH. intros key Hin. apply Hall. by right.
Qed.

(** [in] never raises on a value on which it has answered once. *)
Lemma contains_answers key key' data b :
  contains key data = Ret b → ∃ b', contains key' data = Ret b'.
Proof. destruct data; simpl; intros ?; by eauto. Qed.

Lemma has_required_not_found keys data key :
  key ∈ keys → contains key data = Ret false →
  Data.has_required keys data = Ret false.
Proof.
  intros Hin Hc. induction keys as [|k keys IH]; [by apply elem_of_nil in Hin|].
  simpl. unfold_M.
  destruct (contains_answers key k data false Hc) as [b Hk]. rewrite Hk.
  destruct b; [|done].
  apply IH. apply elem_of_cons in Hin as [->|]; [|done]. congruence.
Qed.

Lemma contains_list_not_found key (l : list json) :
  JStr key ∉ l → contains key (JArr l) = Ret false.
Proof.
  intros Hnin. simpl. f_equal. induction l as [|x l IH]; [done|].
  apply not_elem_of_cons in Hnin as [Hx Hl]. simpl. rewrite IH by done.
  destruct x; try done. rewrite bool_decide_false; [done|]. congruence.
Qed.

(** The key check raises on a number, a boolean and [null]. *)
Lemma has_required_scalar data :
  data = JNull ∨ (∃ b, data = JBool b) ∨ (∃ n, data = JNum n) →
  Data.has_required required_keys data = Raise TypeError.
Proof. by intros [->|[[b ->]|[n ->]]]. Qed.

(** [load_timer_data] on a primary file that is read and parsed. *)
Lemma load_parsed dm st data :
  files st !! filename dm = Some (Document data) →
  filename dm ∉ unreadable st →
  Data.load_timer_data dm st =
  match Data.has_required required_keys data with
  | Ret true => Ret data
  | Ret false => Ret JNull
  | Raise _ => Data._load_from_backup dm st
  end.
Proof.
  intros Hf Hl. unfold Data.load_timer_data, path_exists, read_text.
  unfold_M. rewrite Hf, bool_decide_true by eauto. cbn [negb].
  rewrite bool_decide_false by done. cbn [json_load].
  by destruct (Data.has_required required_keys data) as [[]|e].
Qed.

(** [load_timer_data] when the primary file cannot be opened or parsed. *)
Lemma load_falls_back dm st :
  is_Some (files st !! filename dm) →
  (filename dm ∈ unreadable st
   ∨ ∃ raw, files st !! filename dm = Some (Unparsable raw)) →
  Data.load_timer_data dm st = Data._load_from_backup dm st.
Proof.
  intros Hex Hbad. unfold Data.load_timer_data, path_exists, read_text.
  unfold_M. rewrite bool_decide_true by done. simpl.
  case_bool_decide; [done|].
  destruct Hbad as [?|[raw Hraw]]; [done|]. by rewrite Hraw.
Qed.

Lemma load_never_raises dm st : ∃ v, Data.load_timer_data dm st = Ret v.
Proof.
  unfold Data.load_timer_data. unfold_M.
  destruct (negb _); [by eexists|].
  destruct (read_text _ _) as [txt|e]; [|apply load_from_backup_returns].
  destruct (json_load txt) as [data|e]; [|apply load_from_backup_returns].
  destruct (Data.has_required _ _) as [[]|e];
    [by eexists..|apply load_from_backup_returns].
Qed.

(** C2, as stated, fails: the primary file parses but has only
    [timer_config], the backup holds a full snapshot, and
    [load_timer_data] returns [None], not the backup. *)
Lemma load_missing_key_ignores_backup :
  let full : json :=
    JObj {[ "timer_config" := JObj ∅; "sessions_completed" := JNum 0;
            "completed_sessions" := JArr [] ]} in
  let st :=
    mkStore
      {[ "pomodoro_data.json" :=
           Document (JObj {[ "timer_config" := JObj ∅ ]});
         "pomodoro_data.json.bak" := Document full ]} ∅ ∅ in
  Data._load_from_backup DataManager_default st = Ret full
  ∧ Data.load_timer_data DataManager_default st = Ret JNull
  ∧ Data.load_timer_data DataManager_default st ≠ Ret full.
Proof. by vm_compute. Qed.

(** C2 (amended): let the primary file exist, be readable and parse to
    the value [data].  If [data] is an object that lacks one of
    [timer_config], [sessions_completed], [completed_sessions], or a list
    that does not hold that key as an element, or a string that does not
    contain it, [load_timer_data] returns [None] at once, whatever the
    backup holds.  If [data] is a number, a boolean or [null], the key
    check raises and [load_timer_data] falls back to the backup: it
    returns the backup's value when the backup can be read and parsed,
    and [None] when the backup is missing, cannot be opened or does not
    parse.  In no store state does [load_timer_data] raise. *)
Theorem load_missing_key_absent dm st data :
  files st !! filename dm = Some (Document data) →
  filename dm ∉ unreadable st →
  (∀ m key, data = JObj m → key ∈ required_keys → m !! key = None →
     Data.load_timer_data dm st = Ret JNull)
  ∧ (∀ l key, data = JArr l → key ∈ required_keys → JStr key ∉ l →
     Data.load_timer_data dm st = Ret JNull)
  ∧ (∀ s key, data = JStr s → key ∈ required_keys →
     is_substring key s = false →
     Data.load_timer_data dm st = Ret JNull)
  ∧ (data = JNull ∨ (∃ b, data = JBool b) ∨ (∃ n, data = JNum n) →
     (∀ v, files st !! backup_filename dm = Some (Document v) →
           backup_filename dm ∉ unreadable st →
           Data.load_timer_data dm st = Ret v)
     ∧ (files st !! backup_filename dm = None
        ∨ backup_filename dm ∈ unreadable st
        ∨ (∃ raw, files st !! backup_filename dm = Some (Unparsable raw)) →
        Data.load_timer_data dm st = Ret JNull))
  ∧ ∀ dm' st', ∃ v, Data.load_timer_data dm' st' = Ret v.
Proof.
  intros Hf Hl. rewrite (load_parsed dm st data Hf Hl). split_and!.
  - intros m key -> Hkey Hm. by rewrite (has_required_missing _ _ key).
  - intros l key -> Hkey Hnin.
    rewrite (has_required_not_found _ _ key); [done..|].
    by apply contains_list_not_found.
  - intros s key -> Hkey Hsub.
    rewrite (has_required_not_found _ _ key); [done..|].
    simpl. by rewrite Hsub.
  - intros Hscalar. rewrite has_required_scalar by done. split.
    + intros v Hb Hlb. by apply load_from_backup_document.
    + apply load_from_backup_unusable.
  - apply load_never_raises.
Qed.

Lemma load_missing_key_absent_witness :
  Data.load_timer_data DataManager_default
    (mkStore
       {[ "pomodoro_data.json" :=
            Document (JObj {[ "timer_config" := JObj ∅;
                              "sessions_completed" := JNum 3 ]});
          "pomodoro_data.json.bak" := Document (JObj ∅) ]} ∅ ∅)
  = Ret JNull.
Proof.
  edestruct (load_missing_key_absent DataManager_default
               (mkStore
                  {[ "pomodoro_data.json" :=
                       Document (JObj {[ "timer_config" := JObj ∅;
                                         "sessions_completed" := JNum 3 ]});
                     "pomodoro_data.json.bak" := Document (JObj ∅) ]} ∅ ∅))
    as (Hobj & _); [by vm_compute|by vm_compute|].
  eapply (Hobj _ "completed_sessions"); [reflexivity| |by vm_compute].
  unfold required_keys.
  apply (list_elem_of_lookup_2 _ 2%nat "completed_sessions"). reflexivity.
Defined.

(** A primary file that holds a number sends [load_timer_data] to the
    backup. *)
Example load_number_primary_uses_backup :
  Data.load_timer_data DataManager_default
    (mkStore
       {[ "pomodoro_data.json" := Document (JNum 7);
          "pomodoro_data.json.bak" :=
            Document (JObj {[ "timer_config" := JObj ∅ ]}) ]} ∅ ∅)
  = Ret (JObj {[ "timer_config" := JObj ∅ ]}).
Proof. by vm_compute. Qed.

(** C7: when the primary file exists and does not parse while the backup
    file can be read and holds a JSON value, [load_timer_data] returns
    that value; for a snapshot, an object, this is not [None]. *)
Theorem load_corrupt_primary_uses_backup dm st raw v :
  files st !! filename dm = Some (Unparsable raw) →
  files st !! backup_filename dm = Some (Document v) →
  backup_filename dm ∉ unreadable st →
  Data.load_timer_data dm st = Ret v
  ∧ (∀ m, v = JObj m → Data.load_timer_data dm st ≠ Ret JNull).
Proof.
  intros Hp Hb Hl.
  assert (Data.load_timer_data dm st = Ret v) as ->.
  { rewrite load_falls_back by eauto. by apply load_from_backup_document. }
  split; [done|]. by intros m ->.
Qed.

Lemma load_corrupt_primary_uses_backup_witness :
  Data.load_timer_data DataManager_default
    (mkStore
       {[ "pomodoro_data.json" := Unparsable "{ 'timer_config': ";
          "pomodoro_data.json.bak" :=
            Document (JObj (Data.snapshot (TPomodoro PomodoroTimer_default)
                              "2024-01-01 09:00:00")) ]} ∅ ∅)
  = Ret (JObj (Data.snapshot (TPomodoro PomodoroTimer_default)
                 "2024-01-01 09:00:00")).
Proof.
  eapply (load_corrupt_primary_uses_backup DataManager_default _
            "{ 'timer_config': ").
  - by vm_compute.
  - by vm_compute.
  - by vm_compute.
Defined.

(** ** [DataManager]: saving, then loading *)

Lemma snapshot_lookup t now :
  Data.snapshot t now !! "timer_config"
    = Some (config_json (timer_get_timer_config t))
  ∧ Data.snapshot t now !! "sessions_completed"
    = Some (JNum (timer_get_total_sessions t))
  ∧ Data.snapshot t now !! "completed_sessions"
    = Some (JArr (record_json <$> timer_completed_sessions t))
  ∧ Data.snapshot t now !! "last_saved" = Some (JStr now).
Proof.
  unfold Data.snapshot.
  destruct t; simpl; split_and!; by simplify_map_eq.
Qed.

Lemma snapshot_has_required t now :
  Data.has_required required_keys (JObj (Data.snapshot t now)) = Ret true.
Proof.
  apply has_required_present. intros key Hin.
  destruct (snapshot_lookup t now) as (H1 & H2 & H3 & _).
  unfold required_keys in Hin.
  repeat (apply elem_of_cons in Hin as [->|Hin]; [by eexists|]).
  by apply elem_of_nil in Hin.
Qed.

(** A save on a store whose primary path can be opened for writing succeeds
    and leaves the snapshot in the primary file, whether or not the backup
    copy could be made. *)
Lemma save_writes_snapshot dm t now st :
  filename dm ∉ unwritable st →
  ∃ st', Data.save_timer_data dm t now st = (st', Ret true)
    ∧ files st' !! filename dm
      = Some (Document (JObj (Data.snapshot t now)))
    ∧ unreadable st' = unreadable st
    ∧ unwritable st' = unwritable st.
Proof.
  intros Hl. unfold Data.save_timer_data, write_text, read_text. unfold_M.
  destruct (path_exists (filename dm) st).
  - destruct (bool_decide (filename dm ∈ unreadable st)).
    { simpl. rewrite bool_decide_false by done.
      eexists; (split; [done|]); simpl; by rewrite lookup_insert_eq. }
    destruct (files st !! filename dm) as [txt|].
    + case_bool_decide; simpl; rewrite bool_decide_false by done;
        eexists; (split; [done|]); simpl; by rewrite lookup_insert_eq.
    + simpl. rewrite bool_decide_false by done.
      eexists; (split; [done|]); simpl; by rewrite lookup_insert_eq.
  - simpl. rewrite bool_decide_false by done.
    eexists; (split; [done|]); simpl; by rewrite lookup_insert_eq.
Qed.


Lemma record_json_inj r1 r2 : record_json r1 = record_json r2 → r1 = r2.
Proof.
  destruct r1 as [ty1 d1 at1 n1], r2 as [ty2 d2 at2 n2].
  unfold record_json. cbn [rec_type rec_duration rec_completed_at
    rec_session_number]. intros Heq.
  apply (f_equal (λ j, match j with JObj m => m | _ => ∅ end)) in Heq.
  assert (∀ k, ({[ "type" := JStr ty1; "duration" := JNum d1;
                   "completed_at" := JStr at1;
                   "session_number" := JNum n1 ]} : gmap string json) !! k
               = ({[ "type" := JStr ty2; "duration" := JNum d2;
                     "completed_at" := JStr at2;
                     "session_number" := JNum n2 ]} : gmap string json) !! k)
    as Hk by (intros k; by rewrite Heq).
  pose proof (Hk "type") as H1. pose proof (Hk "duration") as H2.
  pose proof (Hk "completed_at") as H3.
  pose proof (Hk "session_number") as H4.
  simplify_map_eq. done.
Qed.

Lemma config_json_inj c1 c2 : config_json c1 = config_json c2 → c1 = c2.
Proof.
  unfold config_json. intros Heq.
  apply (f_equal (λ j, match j with JObj m => m | _ => ∅ end)) in Heq.
  apply map_eq. intros k.
  assert ((JNum <$> c1) !! k = (JNum <$> c2) !! k) as Hk by by rewrite Heq.
  rewrite !lookup_fmap in Hk.
  destruct (c1 !! k), (c2 !! k); simpl in Hk; congruence.
Qed.



(** * Further properties of the code *)

(** ** [get_statistics] *)

Lemma pomodoro_scan_from (l : list session_record) : ∀ ws tt,
  foldl (λ (acc : list session_record * Z) session,
           (if bool_decide (rec_type session = "work")
            then (acc.1 ++ [session])%list else acc.1,
            acc.2 + rec_duration session))
        (ws, tt) l
  = ((ws ++ work_records l)%list, tt + sum_durations l).
Proof.
  unfold work_records.
  induction l as [|r l IH]; intros ws tt; simpl.
  - by rewrite app_nil_r, Z.add_0_r.
  - rewrite IH. case_bool_decide.
    + rewrite filter_cons_True by done. rewrite <- app_assoc. simpl.
      f_equal. lia.
    + rewrite filter_cons_False by done. f_equal. lia.
Qed.

Lemma pomodoro_scan_spec l :
  PomodoroStats.scan l = (work_records l, sum_durations l).
Proof. unfold PomodoroStats.scan. by rewrite pomodoro_scan_from. Qed.

Lemma work_records_length l : (length (work_records l) ≤ length l)%nat.
Proof. apply length_filter. Qed.

Lemma statistics_total_sessions t :
  PomodoroStats.get_statistics t !! "total_sessions"
  = Some (Z.of_nat (length (work_records (_completed_sessions t)))).
Proof.
  unfold PomodoroStats.get_statistics.
  destruct (_completed_sessions t) as [|r l] eqn:Hs; [done|].
  rewrite pomodoro_scan_spec. by simplify_map_eq.
Qed.

(** X1: [get_statistics] of the cyclic timer, on any history, the empty
    one included: [total_sessions] counts the work records, [total_time]
    adds the durations of all records, [completed_sessions] counts all
    records, and the work count never exceeds the record count. *)
Theorem pomodoro_statistics_spec t :
  let stats := PomodoroStats.get_statistics t in
  let sessions := _completed_sessions t in
  stats !! "total_sessions" = Some (Z.of_nat (length (work_records sessions)))
  ∧ stats !! "total_time" = Some (sum_durations sessions)
  ∧ stats !! "completed_sessions" = Some (Z.of_nat (length sessions))
  ∧ (length (work_records sessions) ≤ length sessions)%nat
  ∧ dom stats = {[ "total_sessions"; "total_time"; "completed_sessions" ]}.
Proof.
  intros stats sessions. unfold stats, PomodoroStats.get_statistics.
  fold sessions. split_and!.
  - destruct sessions as [|r l] eqn:Hs; [done|].
    rewrite pomodoro_scan_spec. by simplify_map_eq.
  - destruct sessions as [|r l] eqn:Hs; [done|].
    rewrite pomodoro_scan_spec. by simplify_map_eq.
  - destruct sessions as [|r l] eqn:Hs; [done|]. by simplify_map_eq.
  - apply work_records_length.
  - destruct sessions; rewrite !dom_insert_L, dom_singleton_L; set_solver.
Qed.

(** What [update_config] leaves: the timer as it was, or the timer with
    the merged configuration. *)
Lemma update_config_result nc t :
  (Pomodoro.update_config nc t).1 = t
  ∨ ∃ w, (Pomodoro.update_config nc t).1 = updated t nc w.
Proof.
  destruct (nc !! "work_duration") as [w|] eqn:Hw;
    [|left; by rewrite update_config_no_work].
  destruct (decide (w ≤ 0));
    [left; by rewrite (update_config_bad_work _ _ w)|].
  destruct (nc !! "short_break") as [b|] eqn:Hb;
    [|left; by rewrite (update_config_no_short _ _ w) by (done || lia)].
  destruct (decide (b ≤ 0));
    [left; by rewrite (update_config_bad_short _ _ w b)|].
  right. exists w. by rewrite (update_config_good _ _ w b) by (done || lia).
Qed.

Lemma updated_frame t nc w :
  _completed_sessions (updated t nc w) = _completed_sessions t
  ∧ _sessions_completed (updated t nc w) = _sessions_completed t
  ∧ _total_sessions (updated t nc w) = _total_sessions t
  ∧ _current_session_type (updated t nc w) = _current_session_type t
  ∧ _is_running (updated t nc w) = _is_running t.
Proof. unfold updated. by destruct (_is_running t) eqn:Hr. Qed.

Lemma counted_counters_match now d t :
  counters_match t → counters_match (counted now d t).
Proof.
  intros [Hw Heq]. unfold counters_match.
  destruct (counted_fields now d t) as (_ & _ & -> & -> & -> & _).
  unfold work_records in *. rewrite filter_app, length_app.
  case_bool_decide.
  - rewrite filter_cons_True by done. simpl. split; lia.
  - rewrite filter_cons_False by done. simpl. split; lia.
Qed.

Lemma complete_session_counters_match now t :
  counters_match t → counters_match (Pomodoro.complete_session now t).1.
Proof.
  intros Hm. rewrite complete_session_unfold.
  destruct (Pomodoro._get_session_duration _ t) as [d|e]; [|done].
  pose proof (counted_counters_match now d t Hm) as Hc.
  destruct (Pomodoro.get_next_session_type _) as [next|e]; [|done].
  simpl. by destruct (Pomodoro._get_session_duration next t).
Qed.

Lemma step_counters_match guard o t t' :
  PomodoroTrace.step guard o t = Some t' →
  counters_match t → counters_match t'.
Proof.
  destruct o as [| |now|nc]; simpl.
  - by intros [= <-].
  - by intros [= <-].
  - intros [= <-]. apply complete_session_counters_match.
  - destruct (guard t nc); [|done].
    pose proof (update_config_result nc t) as Hres.
    destruct (Pomodoro.update_config nc t) as [t'' [[]|e]]; try done.
    intros [= <-] Hm. simpl in Hres. destruct Hres as [->|[w ->]]; [done|].
    unfold counters_match.
    by destruct (updated_frame t nc w) as (-> & -> & -> & _).
Qed.

Lemma run_counters_match guard ops : ∀ t t',
  PomodoroTrace.run guard ops t = Some t' →
  counters_match t → counters_match t'.
Proof.
  induction ops as [|o ops IH]; simpl; intros t t'.
  - by intros [= <-].
  - destruct (PomodoroTrace.step guard o t) as [t1|] eqn:Hstep; [|done].
    intros Hrun Hm. eapply IH; [done|]. by eapply step_counters_match.
Qed.

(** X2: along every sequence of [start_timer], pause, [complete_session]
    and successful [update_config] calls from a fresh cyclic timer, also
    one in which [complete_session] raises, the [total_sessions] of
    [get_statistics], the work counter shown by
    [get_current_session_info] and [get_total_sessions] are the same
    number. *)
Theorem pomodoro_statistics_agree_with_counters wd sb lb ops t :
  PomodoroTrace.run PomodoroTrace.any_update ops
    (PomodoroTimer_init wd sb lb) = Some t →
  PomodoroStats.get_statistics t !! "total_sessions"
    = Some (Pomodoro.get_current_session_info t).2
  ∧ (Pomodoro.get_current_session_info t).2 = Pomodoro.get_total_sessions t.
Proof.
  intros Hrun.
  destruct (run_counters_match _ _ _ _ Hrun) as [Hw Heq]; [done|].
  rewrite statistics_total_sessions.
  simpl. unfold Pomodoro.get_total_sessions. by rewrite Hw.
Qed.

Lemma pomodoro_statistics_agree_with_counters_witness :
  ∃ t, PomodoroTrace.run PomodoroTrace.any_update
         [ OpComplete "2024-01-01 09:25:00";
           OpComplete "2024-01-01 09:30:00";
           OpUpdate {[ "work_duration" := 30; "short_break" := 5 ]};
           OpComplete "2024-01-01 10:00:00" ]
         PomodoroTimer_default = Some t
       ∧ PomodoroStats.get_statistics t !! "total_sessions" = Some 2
       ∧ Pomodoro.get_total_sessions t = 2.
Proof.
  eexists. split; [by vm_compute|].
  edestruct (pomodoro_statistics_agree_with_counters 25 5 15
              [ OpComplete "2024-01-01 09:25:00";
                OpComplete "2024-01-01 09:30:00";
                OpUpdate {[ "work_duration" := 30; "short_break" := 5 ]};
                OpComplete "2024-01-01 10:00:00" ]) as [H1 H2];
    [by vm_compute|].
  split; [exact H1|]. by rewrite <- H2.
Defined.

Lemma revision_scan_from (l : list session_record) : ∀ tt,
  foldl (λ total_time session, total_time + rec_duration session) tt l
  = tt + sum_durations l.
Proof.
  induction l as [|r l IH]; intros tt; simpl; [lia|]. rewrite IH. lia.
Qed.

(** X3: [get_statistics] of the revision timer counts every record as a
    session: [total_sessions] and [completed_sessions] are both the
    number of records, [total_time] is the sum of their durations; and in
    every timer reached from a fresh one this number is the one
    [get_total_sessions] and [get_current_session_info] report. *)
Theorem revision_statistics_spec duration ops :
  let t := RevisionTrace.run ops (RevisionTimer_init duration) in
  let stats := RevisionStats.get_statistics t in
  stats !! "total_sessions"
    = Some (Z.of_nat (length (r_completed_sessions t)))
  ∧ stats !! "completed_sessions" = stats !! "total_sessions"
  ∧ stats !! "total_time" = Some (sum_durations (r_completed_sessions t))
  ∧ stats !! "total_sessions" = Some (Revision.get_total_sessions t)
  ∧ stats !! "total_sessions"
    = Some (Revision.get_current_session_info t).2.
Proof.
  intros t stats.
  destruct (revision_run_counters ops (RevisionTimer_init duration))
    as (_ & H2 & H3); [done|].
  fold t in H2, H3. simpl in H2, H3.
  assert (stats !! "total_sessions"
          = Some (Z.of_nat (length (r_completed_sessions t)))) as Hts.
  { unfold stats, RevisionStats.get_statistics.
    destruct (r_completed_sessions t); by simplify_map_eq. }
  assert (Z.of_nat (length (r_completed_sessions t)) = r_total_sessions t)
    as Htot by (unfold completions in H2; lia).
  split_and!; try done.
  - rewrite Hts. unfold stats, RevisionStats.get_statistics.
    destruct (r_completed_sessions t); by simplify_map_eq.
  - unfold stats, RevisionStats.get_statistics, RevisionStats.scan.
    destruct (r_completed_sessions t) as [|r l] eqn:Hl; [done|].
    rewrite revision_scan_from. by simplify_map_eq.
  - by rewrite Hts, Htot.
  - rewrite Hts, Htot. done.
Qed.

(** ** [add_study_note] *)

Lemma lstrip_all_space s : all_space s = true → lstrip s = "".
Proof.
  induction s as [|c s IH]; simpl; [done|].
  intros [Hc Hs]%andb_true_iff. rewrite Hc. by apply IH.
Qed.

Lemma lstrip_head s :
  all_space s = false →
  ∃ c r, lstrip s = String c r ∧ py_isspace c = false.
Proof.
  induction s as [|c s IH]; simpl; [done|].
  destruct (py_isspace c) eqn:Hc; simpl; [apply IH|by eexists _, _].
Qed.

Lemma rstrip_nonspace_head c r :
  py_isspace c = false → ∃ r', rstrip (String c r) = String c r'.
Proof.
  intros Hc. simpl. destruct (rstrip r); rewrite ?Hc; by eexists.
Qed.

Lemma rstrip_last s :
  rstrip s = ""
  ∨ ∃ c, string_last (rstrip s) = Some c ∧ py_isspace c = false.
Proof.
  induction s as [|c s IH]; simpl; [by left|].
  destruct (rstrip s) as [|c' r] eqn:Hr.
  - destruct (py_isspace c) eqn:Hc; [by left|right; by exists c].
  - right. destruct IH as [?|(c0 & Hlast & Hc0)]; [done|]. by exists c0.
Qed.

Lemma strip_all_space s : all_space s = true → strip s = "".
Proof. intros H. unfold strip. by rewrite lstrip_all_space. Qed.

Lemma strip_trimmed s : all_space s = false → trimmed (strip s).
Proof.
  intros H. unfold strip.
  destruct (lstrip_head s H) as (c & r & -> & Hc).
  destruct (rstrip_nonspace_head c r Hc) as [r' Hr']. split.
  - exists c. by rewrite Hr'.
  - destruct (rstrip_last (String c r)) as [Hnil|?]; [|done].
    by rewrite Hr' in Hnil.
Qed.

Lemma trimmed_not_all_space s : trimmed s → all_space s = false.
Proof.
  intros [(c & Hh & Hc) _]. destruct s as [|c' s]; [done|].
  simpl in *. injection Hh as ->. by rewrite Hc.
Qed.

Lemma rstrip_trimmed_id s :
  (∃ c, string_last s = Some c ∧ py_isspace c = false) → rstrip s = s.
Proof.
  induction s as [|c s IH]; [done|]. intros (c0 & Hlast & Hc0).
  simpl in *. destruct s as [|c' s'].
  - injection Hlast as ->. simpl. by rewrite Hc0.
  - rewrite IH by eauto. done.
Qed.

Lemma strip_trimmed_id s : trimmed s → strip s = s.
Proof.
  intros [(c & Hh & Hc) Hl]. unfold strip.
  destruct s as [|c' s]; [done|]. simpl in Hh. injection Hh as ->.
  simpl lstrip. rewrite Hc. by apply rstrip_trimmed_id.
Qed.

Lemma trimmed_length s : trimmed s → (0 < String.length s)%nat.
Proof. intros [(c & Hh & _) _]. destruct s; [done|simpl; lia]. Qed.

Lemma add_study_note_cases note t :
  Study.add_study_note note t =
  (if all_space note then t
   else mkStudy (study_base t) (_daily_goal_minutes t)
          (_study_notes t ++ [strip note]), Ret ()).
Proof.
  unfold Study.add_study_note.
  destruct (all_space note) eqn:Hs.
  - rewrite strip_all_space by done. simpl.
    by rewrite andb_false_r.
  - pose proof (trimmed_length _ (strip_trimmed _ Hs)) as Hlen.
    rewrite bool_decide_false by by intros ->.
    rewrite bool_decide_true by lia. done.
Qed.

(** X4: [add_study_note] ignores a note that is empty or all white space
    (the timer is returned untouched), and otherwise appends exactly one
    entry, the note without its leading and trailing white space, which
    is non-empty and on which stripping again changes nothing; the
    timer's sessions and daily goal are never touched. *)
Theorem add_study_note_spec note t :
  let t' := (Study.add_study_note note t).1 in
  (Study.add_study_note note t).2 = Ret ()
  ∧ (all_space note = true → t' = t)
  ∧ (all_space note = false →
       Study.get_study_notes t' = (Study.get_study_notes t ++ [strip note])%list
       ∧ trimmed (strip note)
       ∧ strip (strip note) = strip note)
  ∧ study_base t' = study_base t
  ∧ _daily_goal_minutes t' = _daily_goal_minutes t.
Proof.
  intros t'. unfold t'. rewrite add_study_note_cases.
  destruct (all_space note) eqn:Hs; simpl; split_and!; try done.
  intros _. split_and!; [done|by apply strip_trimmed|].
  apply strip_trimmed_id. by apply strip_trimmed.
Qed.

Lemma add_notes_trimmed notes : ∀ t,
  Forall trimmed (_study_notes t) →
  Forall trimmed (_study_notes (add_notes notes t)).
Proof.
  unfold add_notes.
  induction notes as [|note notes IH]; simpl; intros t Ht; [done|].
  apply IH. rewrite add_study_note_cases. simpl.
  destruct (all_space note) eqn:Hs; [done|]. simpl.
  apply Forall_app. split; [done|].
  apply Forall_singleton. by apply strip_trimmed.
Qed.

Lemma add_notes_stored notes : ∀ t,
  _study_notes (add_notes notes t)
  = (_study_notes t
     ++ (strip <$> filter (λ note, all_space note = false) notes))%list.
Proof.
  unfold add_notes.
  induction notes as [|note notes IH]; simpl; intros t.
  { by rewrite app_nil_r. }
  rewrite IH, add_study_note_cases. simpl.
  destruct (all_space note) eqn:Hs.
  - by rewrite filter_cons_False by by rewrite Hs.
  - rewrite filter_cons_True by done. simpl. by rewrite <- app_assoc.
Qed.

(** X5: whatever notes are added to a fresh study timer, the stored list
    holds, in order, the stripped form of each note that is not blank,
    and every stored note is non-empty and has no white space at either
    end. *)
Theorem study_notes_always_trimmed wd sb lb notes :
  let t := add_notes notes (StudyTimer_init wd sb lb) in
  Study.get_study_notes t
    = strip <$> filter (λ note, all_space note = false) notes
  ∧ Forall trimmed (Study.get_study_notes t)
  ∧ Forall (λ note, note ≠ "" ∧ strip note = note) (Study.get_study_notes t).
Proof.
  intros t. unfold t, Study.get_study_notes.
  assert (Forall trimmed
            (_study_notes (add_notes notes (StudyTimer_init wd sb lb))))
    as Htr by by apply add_notes_trimmed.
  split_and!; [by rewrite add_notes_stored|done|].
  eapply Forall_impl; [exact Htr|]. intros s Hs. split.
  - intros ->. by destruct Hs as [(c & ? & _) _].
  - by apply strip_trimmed_id.
Qed.

(** ** [save_timer_data]: failure, and the backup copy *)

Lemma append_length (s1 s2 : string) :
  String.length (s1 +:+ s2) = (String.length s1 + String.length s2)%nat.
Proof. induction s1 as [|c s1 IH]; simpl; [done|]. by rewrite IH. Qed.

Lemma backup_path_distinct f :
  filename (DataManager_init f) ≠ backup_filename (DataManager_init f).
Proof.
  simpl. intros Heq. apply (f_equal String.length) in Heq.
  rewrite append_length in Heq. simpl in Heq. lia.
Qed.

(** What one save does when the primary path cannot be opened for
    writing: the backup copy is still attempted, then the write of the
    primary file raises and the result is [False]. *)
Lemma save_unwritable_primary dm t now st :
  filename dm ∈ unwritable st →
  ∃ st', Data.save_timer_data dm t now st = (st', Ret false)
    ∧ unreadable st' = unreadable st
    ∧ unwritable st' = unwritable st
    ∧ (∀ p, p ≠ backup_filename dm → files st' !! p = files st !! p)
    ∧ (∀ old, files st !! filename dm = Some old →
         filename dm ∉ unreadable st →
         backup_filename dm ∉ unwritable st →
         files st' !! backup_filename dm = Some old)
    ∧ (files st !! filename dm = None
       ∨ filename dm ∈ unreadable st
       ∨ backup_filename dm ∈ unwritable st → st' = st).
Proof.
  intros Hl.
  unfold Data.save_timer_data, write_text, read_text, path_exists. unfold_M.
  destruct (files st !! filename dm) as [old|] eqn:Hold.
  - rewrite ?Hold, bool_decide_true by eauto.
    destruct (decide (filename dm ∈ unreadable st)) as [Hr|Hr].
    { rewrite (bool_decide_true (filename dm ∈ unreadable st)) by done.
      simpl. rewrite bool_decide_true by done.
      exists st. by split_and!. }
    rewrite (bool_decide_false (filename dm ∈ unreadable st)) by done.
    rewrite ?Hold.
    destruct (decide (backup_filename dm ∈ unwritable st)) as [Hb|Hb].
    { rewrite (bool_decide_true (backup_filename dm ∈ unwritable st))
        by done.
      simpl. rewrite bool_decide_true by done.
      exists st. by split_and!. }
    rewrite (bool_decide_false (backup_filename dm ∈ unwritable st)) by done.
    simpl. rewrite bool_decide_true by done.
    eexists. split; [done|]. simpl. split_and!; try done.
    + intros p Hp. by rewrite lookup_insert_ne.
    + intros old' [= <-] _ _. by rewrite lookup_insert_eq.
    + by intros [?|[?|?]].
  - rewrite ?Hold, bool_decide_false by by intros [??].
    simpl. rewrite bool_decide_true by done.
    exists st. by split_and!.
Qed.

(** X6: when the primary path cannot be opened for writing,
    [save_timer_data] returns [False] and the primary file, like every
    file other than the backup, is as before.  The backup copy is made
    all the same: when the primary file exists and can be read and the
    backup path can be written, the backup file holds the primary file's
    text afterwards; in every other case the store is exactly as
    before. *)
Theorem save_unwritable_primary_fails dm t now st :
  filename dm ∈ unwritable st →
  ∃ st', Data.save_timer_data dm t now st = (st', Ret false)
    ∧ files st' !! filename dm = files st !! filename dm
    ∧ (∀ p, p ≠ backup_filename dm → files st' !! p = files st !! p)
    ∧ (∀ old, files st !! filename dm = Some old →
         filename dm ∉ unreadable st →
         backup_filename dm ∉ unwritable st →
         files st' !! backup_filename dm = Some old)
    ∧ (files st !! filename dm = None
       ∨ filename dm ∈ unreadable st
       ∨ backup_filename dm ∈ unwritable st → st' = st)
    ∧ unreadable st' = unreadable st
    ∧ unwritable st' = unwritable st.
Proof.
  intros Hl.
  destruct (save_unwritable_primary dm t now st Hl)
    as (st' & Hsave & Hr & Hw & Hother & Hcopy & Hsame).
  exists st'. split_and!; try done.
  destruct (decide (filename dm = backup_filename dm)) as [Heq|Hne].
  - rewrite Hsame; [done|]. right; right. by rewrite <- Heq.
  - by apply Hother.
Qed.

Lemma save_unwritable_primary_fails_witness :
  let st := mkStore {[ "pomodoro_data.json" := Unparsable "old" ]}
              ∅ {[ "pomodoro_data.json" ]} in
  ∃ st', Data.save_timer_data DataManager_default
           (TPomodoro PomodoroTimer_default) "2024-01-01 09:00:00" st
         = (st', Ret false)
    ∧ files st' !! "pomodoro_data.json" = Some (Unparsable "old")
    ∧ files st' !! "pomodoro_data.json.bak" = Some (Unparsable "old").
Proof.
  intros st.
  destruct (save_unwritable_primary_fails DataManager_default
              (TPomodoro PomodoroTimer_default) "2024-01-01 09:00:00" st)
    as (st' & Hsave & Hp & _ & Hcopy & _); [by vm_compute|].
  exists st'. split_and!.
  - exact Hsave.
  - etrans; [exact Hp|by vm_compute].
  - apply Hcopy; by vm_compute.
Defined.

(** A primary file that is read-only is not replaced, yet its text
    reaches the backup path and the save reports [False]. *)
Example save_read_only_primary :
  Data.save_timer_data DataManager_default (TPomodoro PomodoroTimer_default)
    "2024-01-01 09:00:00"
    (mkStore {[ "pomodoro_data.json" := Unparsable "old" ]}
       ∅ {[ "pomodoro_data.json" ]})
  = (mkStore {[ "pomodoro_data.json" := Unparsable "old";
                "pomodoro_data.json.bak" := Unparsable "old" ]}
       ∅ {[ "pomodoro_data.json" ]}, Ret false).
Proof. by vm_compute. Qed.

(** What one save does to the files, when the primary path can be opened
    both ways and the backup path can be written. *)
Lemma save_files dm t now st :
  filename dm ∉ unwritable st →
  filename dm ∉ unreadable st →
  backup_filename dm ∉ unwritable st →
  filename dm ≠ backup_filename dm →
  ∃ st', Data.save_timer_data dm t now st = (st', Ret true)
    ∧ unreadable st' = unreadable st
    ∧ unwritable st' = unwritable st
    ∧ files st' !! filename dm = Some (Document (JObj (Data.snapshot t now)))
    ∧ files st' !! backup_filename dm =
        match files st !! filename dm with
        | Some old => Some old
        | None => files st !! backup_filename dm
        end
    ∧ ∀ p, p ≠ filename dm → p ≠ backup_filename dm →
           files st' !! p = files st !! p.
Proof.
  intros Hl Hr Hlb Hne.
  unfold Data.save_timer_data, write_text, read_text, path_exists. unfold_M.
  destruct (files st !! filename dm) as [old|] eqn:Hold.
  - rewrite ?Hold, bool_decide_true by eauto.
    rewrite (bool_decide_false (filename dm ∈ unreadable st)) by done.
    rewrite ?Hold, bool_decide_false by done. simpl.
    rewrite bool_decide_false by done.
    eexists. split; [done|]. simpl. split_and!; try done.
    + by rewrite lookup_insert_eq.
    + by rewrite lookup_insert_ne, lookup_insert_eq.
    + intros p ??. by rewrite !lookup_insert_ne.
  - rewrite ?Hold, bool_decide_false by by intros [??].
    simpl. rewrite bool_decide_false by done.
    eexists. split; [done|]. simpl. split_and!; try done.
    + by rewrite lookup_insert_eq.
    + by rewrite lookup_insert_ne.
    + intros p ??. by rewrite !lookup_insert_ne.
Qed.

(** X7: on a store whose primary path can be opened both ways and whose
    backup path can be written, a save that finds a primary file copies
    its text, whatever it is, to the backup path before replacing it; a
    save that finds none leaves the backup path alone; no other file is
    touched. *)
Theorem save_keeps_one_backup f t now st :
  let dm := DataManager_init f in
  filename dm ∉ unwritable st →
  filename dm ∉ unreadable st →
  backup_filename dm ∉ unwritable st →
  ∃ st', Data.save_timer_data dm t now st = (st', Ret true)
    ∧ files st' !! filename dm = Some (Document (JObj (Data.snapshot t now)))
    ∧ (∀ old, files st !! filename dm = Some old →
              files st' !! backup_filename dm = Some old)
    ∧ (files st !! filename dm = None →
         files st' !! backup_filename dm = files st !! backup_filename dm)
    ∧ ∀ p, p ≠ filename dm → p ≠ backup_filename dm →
           files st' !! p = files st !! p.
Proof.
  intros dm Hl Hr Hlb.
  destruct (save_files dm t now st Hl Hr Hlb (backup_path_distinct f))
    as (st' & Hsave & _ & _ & Hp & Hb & Hother).
  exists st'. split_and!; try done.
  - intros old Hold. by rewrite Hb, Hold.
  - intros Hnone. by rewrite Hb, Hnone.
Qed.

Lemma save_keeps_one_backup_witness :
  ∃ st', Data.save_timer_data DataManager_default
           (TPomodoro PomodoroTimer_default) "2024-01-01 09:00:00"
           (mkStore {[ "pomodoro_data.json" := Unparsable "{ broken" ]} ∅ ∅)
         = (st', Ret true)
       ∧ files st' !! "pomodoro_data.json.bak" = Some (Unparsable "{ broken").
Proof.
  destruct (save_keeps_one_backup "pomodoro_data.json"
              (TPomodoro PomodoroTimer_default) "2024-01-01 09:00:00"
              (mkStore {[ "pomodoro_data.json" := Unparsable "{ broken" ]}
                 ∅ ∅))
    as (st' & Hsave & _ & Hb & _); [by vm_compute..|].
  exists st'. split; [exact Hsave|]. apply Hb. by vm_compute.
Defined.

(** The store after the primary file has been overwritten with text that
    does not parse. *)
Lemma load_after_corruption dm st raw v :
  files st !! backup_filename dm = Some (Document v) →
  backup_filename dm ∉ unreadable st →
  filename dm ≠ backup_filename dm →
  Data.load_timer_data dm
    (mkStore (<[filename dm := Unparsable raw]> (files st))
       (unreadable st) (unwritable st))
  = Ret v.
Proof.
  intros Hb Hl Hne. rewrite load_falls_back; simpl.
  - apply load_from_backup_document; simpl; [|done].
    by rewrite lookup_insert_ne.
  - rewrite lookup_insert_eq. by eexists.
  - right. exists raw. by rewrite lookup_insert_eq.
Qed.

(** X8: on a store where both paths can be opened both ways, after two
    saves in a row, if the primary file is then overwritten with text
    that does not parse, [load_timer_data] returns the snapshot of the
    first save: one generation is kept, and the second save is lost with
    the primary file. *)
Theorem two_saves_then_corruption f t1 now1 t2 now2 st raw :
  let dm := DataManager_init f in
  filename dm ∉ unwritable st →
  filename dm ∉ unreadable st →
  backup_filename dm ∉ unwritable st →
  backup_filename dm ∉ unreadable st →
  let st1 := (Data.save_timer_data dm t1 now1 st).1 in
  let st2 := (Data.save_timer_data dm t2 now2 st1).1 in
  Data.load_timer_data dm st2 = Ret (JObj (Data.snapshot t2 now2))
  ∧ Data.load_timer_data dm
      (mkStore (<[filename dm := Unparsable raw]> (files st2))
         (unreadable st2) (unwritable st2))
    = Ret (JObj (Data.snapshot t1 now1)).
Proof.
  intros dm Hl Hr Hlb Hrb st1 st2.
  pose proof (backup_path_distinct f) as Hne. fold dm in Hne.
  destruct (save_files dm t1 now1 st Hl Hr Hlb Hne)
    as (s1 & Hs1 & Hr1 & Hw1 & Hp1 & _).
  assert (st1 = s1) as Hst1 by (unfold st1; by rewrite Hs1).
  destruct (save_files dm t2 now2 s1)
    as (s2 & Hs2 & Hr2 & Hw2 & Hp2 & Hb2 & _);
    [by rewrite Hw1|by rewrite Hr1|by rewrite Hw1|done|].
  assert (st2 = s2) as Hst2 by (unfold st2; by rewrite Hst1, Hs2).
  rewrite Hst2. rewrite Hp1 in Hb2. split.
  - rewrite (load_parsed dm s2 _ Hp2) by by rewrite Hr2, Hr1.
    by rewrite snapshot_has_required.
  - apply load_after_corruption; [done| |done]. by rewrite Hr2, Hr1.
Qed.

Lemma two_saves_then_corruption_witness :
  let dm := DataManager_default in
  let t1 := TPomodoro PomodoroTimer_default in
  let t2 := TPomodoro (Pomodoro.complete_session "2024-01-01 09:25:00"
                         PomodoroTimer_default).1 in
  let st2 := (Data.save_timer_data dm t2 "2024-01-01 09:26:00"
                (Data.save_timer_data dm t1 "2024-01-01 09:00:00"
                   (mkStore ∅ ∅ ∅)).1).1 in
  Data.load_timer_data dm
    (mkStore (<[filename dm := Unparsable ""]> (files st2))
       (unreadable st2) (unwritable st2))
  = Ret (JObj (Data.snapshot t1 "2024-01-01 09:00:00")).
Proof.
  intros dm t1 t2 st2.
  apply (two_saves_then_corruption "pomodoro_data.json" t1
           "2024-01-01 09:00:00" t2 "2024-01-01 09:26:00" (mkStore ∅ ∅ ∅) "");
    by vm_compute.
Defined.

(** X9: when the primary file does not exist, [load_timer_data] returns
    [None] without looking at the backup, even a readable backup that
    holds a full snapshot: there the result differs from what
    [_load_from_backup] would have returned. *)
Theorem load_absent_primary dm st :
  files st !! filename dm = None →
  Data.load_timer_data dm st = Ret JNull
  ∧ (∀ t now,
       files st !! backup_filename dm
         = Some (Document (JObj (Data.snapshot t now))) →
       backup_filename dm ∉ unreadable st →
       Data._load_from_backup dm st = Ret (JObj (Data.snapshot t now))
       ∧ Data.load_timer_data dm st
         ≠ Data._load_from_backup dm st).
Proof.
  intros Hnone.
  assert (Data.load_timer_data dm st = Ret JNull) as Hload.
  { unfold Data.load_timer_data, path_exists. unfold_M.
    rewrite bool_decide_false; [done|]. rewrite Hnone. by intros [??]. }
  split; [done|]. intros t now Hb Hlb.
  rewrite Hload, (load_from_backup_document _ _ _ Hb Hlb). done.
Qed.

Lemma load_absent_primary_witness :
  Data.load_timer_data DataManager_default
    (mkStore
       {[ "pomodoro_data.json.bak" :=
            Document (JObj (Data.snapshot (TPomodoro PomodoroTimer_default)
                              "2024-01-01 09:00:00")) ]} ∅ ∅)
  = Ret JNull.
Proof.
  apply (load_absent_primary DataManager_default). by vm_compute.
Defined.

(** ** [RevisionTimer.update_config] and [get_timer_config] *)

Lemma revision_update_config_no_duration nc t :
  nc !! "duration" = None → Revision.update_config nc t = (t, Ret false).
Proof. intros Hd. unfold Revision.update_config. unfold_M. by rewrite Hd. Qed.

(** X10: [RevisionTimer.update_config] returns [False] and leaves the
    timer untouched when [duration] is missing or not positive (other
    keys are ignored); with a positive [duration] it returns [True], the
    next [get_timer_config] reports exactly that duration,
    [remaining_time] restarts at the duration times 60 unless the timer
    is running, and counters and history are kept.  The attribute
    [_timer_config] is never written. *)
Theorem revision_update_config_spec nc t :
  (nc !! "duration" = None ∨ (∃ d, nc !! "duration" = Some d ∧ d ≤ 0) →
     Revision.update_config nc t = (t, Ret false))
  ∧ (∀ d, nc !! "duration" = Some d → 0 < d →
       ∃ t', Revision.update_config nc t = (t', Ret true)
         ∧ Revision.get_timer_config t' = {[ "duration" := d ]}
         ∧ r_remaining_time t' =
             (if r_is_running t then r_remaining_time t else d * 60)
         ∧ r_is_running t' = r_is_running t
         ∧ r_completed_sessions t' = r_completed_sessions t
         ∧ r_sessions_completed t' = r_sessions_completed t
         ∧ r_total_sessions t' = r_total_sessions t)
  ∧ r_timer_config (Revision.update_config nc t).1 = r_timer_config t.
Proof.
  split_and!.
  - intros Hbad. unfold Revision.update_config. unfold_M.
    destruct Hbad as [->|(d & -> & Hd)]; [done|].
    by rewrite bool_decide_false by lia.
  - intros d Hd Hpos. unfold Revision.update_config. unfold_M.
    rewrite Hd, bool_decide_true by lia. simpl.
    unfold Revision.get_timer_config.
    destruct (r_is_running t) eqn:Hr; simpl;
      (eexists; split; [done|]); simpl; rewrite ?Hr, Z.div_mul by done;
      by split_and!.
  - destruct (revision_update_config_cases nc t)
      as [(d & _ & _ & ->)| ->]; simpl; [|done].
    by destruct (r_is_running t).
Qed.

Lemma revision_complete_session_ok now t :
  revision_ok t → revision_ok (Revision.complete_session now t).1.
Proof.
  intros [(d & Hpos & Hd) Hall]. rewrite revision_complete_session_unfold.
  simpl. split; [by exists d|].
  apply Forall_app. split; [done|]. apply Forall_singleton. simpl.
  split; [done|]. rewrite Hd, Z.div_mul by done. done.
Qed.

Lemma revision_step_ok o t :
  revision_ok t → revision_ok (RevisionTrace.step o t).
Proof.
  intros Hok. destruct o as [| |now|nc]; simpl; try done.
  - by apply revision_complete_session_ok.
  - destruct Hok as [Hd Hall].
    destruct (revision_update_config_cases nc t)
      as [(d' & _ & Hpos & ->)| ->]; simpl; [|done].
    split; destruct (r_is_running t); simpl; (done || by exists d').
Qed.

Lemma revision_run_ok ops : ∀ t,
  revision_ok t → revision_ok (RevisionTrace.run ops t).
Proof.
  induction ops as [|o ops IH]; simpl; intros t Ht; [done|].
  apply IH. by apply revision_step_ok.
Qed.

Lemma revision_run_timer_config ops : ∀ t,
  r_timer_config (RevisionTrace.run ops t) = r_timer_config t.
Proof.
  induction ops as [|o ops IH]; simpl; intros t; [done|].
  rewrite IH. destruct o as [| |now|nc]; simpl; try done.
  destruct (revision_update_config_cases nc t)
    as [(d' & _ & _ & ->)| ->]; simpl; [|done].
  by destruct (r_is_running t).
Qed.

(** X11: a revision timer built with a positive duration keeps, through
    any sequence of [start_timer], pause, [update_config] and
    [complete_session] calls, a positive duration of whole minutes, which
    is what [get_timer_config] reports, and a history of [revision]
    records with positive durations; the attribute [_timer_config] still
    holds the constructor's duration, whatever [update_config] was given. *)
Theorem revision_duration_stays_positive duration ops :
  0 < duration →
  let t := RevisionTrace.run ops (RevisionTimer_init duration) in
  (∃ d, 0 < d ∧ r_duration t = d * 60
        ∧ Revision.get_timer_config t = {[ "duration" := d ]})
  ∧ Forall (λ r, rec_type r = "revision" ∧ 0 < rec_duration r)
      (r_completed_sessions t)
  ∧ r_timer_config t = {[ "duration" := duration ]}.
Proof.
  intros Hpos t.
  destruct (revision_run_ok ops (RevisionTimer_init duration))
    as [(d & Hd0 & Hd) Hall].
  { split; [by exists duration|done]. }
  split_and!; [|done|apply revision_run_timer_config].
  exists d. split_and!; try done.
  unfold Revision.get_timer_config, t. by rewrite Hd, Z.div_mul.
Qed.

Lemma revision_duration_stays_positive_witness :
  let t := RevisionTrace.run
             [ OpStart; OpUpdate {[ "duration" := 0 ]};
               OpUpdate {[ "duration" := 45 ]};
               OpComplete "2024-01-01 10:00:00" ]
             RevisionTimer_default in
  Revision.get_timer_config t = {[ "duration" := 45 ]}
  ∧ r_timer_config t = {[ "duration" := 60 ]}.
Proof.
  intros t.
  destruct (revision_duration_stays_positive 60
              [ OpStart; OpUpdate {[ "duration" := 0 ]};
                OpUpdate {[ "duration" := 45 ]};
                OpComplete "2024-01-01 10:00:00" ])
    as ((d & _ & Hd & Hcfg) & _ & Hattr); [lia|].
  split; [|exact Hattr]. by vm_compute.
Defined.

(** ** [load_saved_data]: what a restart restores *)

Ltac unfold_MO :=
  unfold mbind, mret, MO_bind, MO_ret, liftM, typed, try_except_o, on_base,
    M_bind, M_ret, eval, get, modify, raise in *.

Lemma config_of_json_fmap (c : gmap string Z) :
  config_of_json (JNum <$> c) = Some c.
Proof.
  unfold config_of_json. rewrite decide_True.
  - f_equal. apply map_eq. intros k. rewrite lookup_omap, lookup_fmap.
    by destruct (c !! k).
  - intros k v. rewrite lookup_fmap. destruct (c !! k); [|done].
    intros [= <-]. by eexists.
Qed.

Lemma record_of_json_record r : record_of_json (record_json r) = Some r.
Proof. destruct r as [ty d at_ n]. by vm_compute. Qed.

Lemma sessions_of_json_records l :
  sessions_of_json (JArr (record_json <$> l)) = Some l.
Proof.
  simpl. apply mapM_fmap_Some. intros r. apply record_of_json_record.
Qed.

Lemma notes_of_json_notes l : notes_of_json (JArr (JStr <$> l)) = Some l.
Proof. simpl. by apply mapM_fmap_Some. Qed.

Lemma snapshot_study_lookup s now :
  Data.snapshot (TStudy s) now !! "study_notes"
    = Some (JArr (JStr <$> _study_notes s))
  ∧ Data.snapshot (TStudy s) now !! "daily_goal_minutes"
    = Some (JNum (_daily_goal_minutes s)).
Proof. unfold Data.snapshot. simpl. split; by simplify_map_eq. Qed.

Lemma snapshot_plain_lookup t now :
  timer_study_notes t = None →
  Data.snapshot t now !! "study_notes" = None
  ∧ Data.snapshot t now !! "daily_goal_minutes" = None.
Proof.
  unfold Data.snapshot. destruct t; simpl; try done;
    intros _; split; by simplify_map_eq.
Qed.

Lemma snapshot_truthy t now : truthy (JObj (Data.snapshot t now)) = true.
Proof.
  simpl. rewrite bool_decide_false; [done|]. intros Hempty.
  destruct (snapshot_lookup t now) as (Hc & _).
  by rewrite Hempty, lookup_empty in Hc.
Qed.

Section restore.
Variables (m : gmap string json) (s : StudyTimer).

Lemma restore_config_present cfg :
  m !! "timer_config" = Some (config_json cfg) →
  Main.restore_config (JObj m) s =
  Some (set_study_base (Pomodoro.update_config cfg (study_base s)).1 s,
        match (Pomodoro.update_config cfg (study_base s)).2 with
        | Ret _ => Ret ()
        | Raise e => Raise e
        end).
Proof.
  intros Hm. unfold Main.restore_config, contains, json_getitem, getitem,
    pomodoro_update_config_json, config_json. unfold_MO.
  rewrite Hm, bool_decide_true by eauto. unfold config_json.
  rewrite config_of_json_fmap.
  by destruct (Pomodoro.update_config cfg (study_base s)) as [p [r|e]].
Qed.

Lemma restore_sessions_present l :
  m !! "completed_sessions" = Some (JArr (record_json <$> l)) →
  Main.restore_sessions (JObj m) s =
  Some (set_study_base (set_completed_sessions l (study_base s)) s, Ret ()).
Proof.
  intros Hm. unfold Main.restore_sessions, contains, json_getitem, getitem.
  unfold_MO. rewrite Hm, bool_decide_true by eauto.
  by rewrite sessions_of_json_records.
Qed.

Lemma restore_counters_present n :
  m !! "sessions_completed" = Some (JNum n) →
  Main.restore_counters (JObj m) s =
  Some (set_study_base
          (set_total_sessions n (set_sessions_completed n (study_base s))) s,
        Ret ()).
Proof.
  intros Hm. unfold Main.restore_counters, contains, json_getitem, getitem.
  unfold_MO. by rewrite Hm, bool_decide_true by eauto.
Qed.

Lemma restore_notes_present l :
  m !! "study_notes" = Some (JArr (JStr <$> l)) →
  Main.restore_notes (JObj m) s =
  Some (mkStudy (study_base s) (_daily_goal_minutes s) l, Ret ()).
Proof.
  intros Hm. unfold Main.restore_notes, contains, json_getitem, getitem.
  unfold_MO. rewrite Hm, bool_decide_true by eauto.
  by rewrite notes_of_json_notes.
Qed.

Lemma restore_goal_present g :
  m !! "daily_goal_minutes" = Some (JNum g) →
  Main.restore_goal (JObj m) s =
  Some (mkStudy (study_base s) g (_study_notes s), Ret ()).
Proof.
  intros Hm. unfold Main.restore_goal, contains, json_getitem, getitem.
  unfold_MO. by rewrite Hm, bool_decide_true by eauto.
Qed.

Lemma restore_notes_absent :
  m !! "study_notes" = None → Main.restore_notes (JObj m) s = Some (s, Ret ()).
Proof.
  intros Hm. unfold Main.restore_notes, contains. unfold_MO.
  rewrite Hm, bool_decide_false; [done|]. by intros [??].
Qed.

Lemma restore_goal_absent :
  m !! "daily_goal_minutes" = None →
  Main.restore_goal (JObj m) s = Some (s, Ret ()).
Proof.
  intros Hm. unfold Main.restore_goal, contains. unfold_MO.
  rewrite Hm, bool_decide_false; [done|]. by intros [??].
Qed.
End restore.

Lemma load_after_save dm t now st :
  filename dm ∉ unwritable st →
  filename dm ∉ unreadable st →
  Data.load_timer_data dm (Data.save_timer_data dm t now st).1
  = Ret (JObj (Data.snapshot t now)).
Proof.
  intros Hl Hr.
  destruct (save_writes_snapshot dm t now st Hl)
    as (st' & -> & Hf & Hr' & _).
  cbn [fst]. rewrite (load_parsed dm st' _ Hf) by by rewrite Hr'.
  by rewrite snapshot_has_required.
Qed.

Lemma union_covers_default (c : gmap string Z) :
  config_complete c → c ∪ _timer_config PomodoroTimer_default = c.
Proof.
  intros ([w Hw] & [b Hb] & [l Hl] & n & Hn & _).
  apply map_eq. intros k. rewrite lookup_union.
  destruct (decide (k = "work_duration")) as [->|];
    [rewrite Hw; by simplify_map_eq|].
  destruct (decide (k = "short_break")) as [->|];
    [rewrite Hb; by simplify_map_eq|].
  destruct (decide (k = "long_break")) as [->|];
    [rewrite Hl; by simplify_map_eq|].
  destruct (decide (k = "sessions_until_long_break")) as [->|];
    [rewrite Hn; by simplify_map_eq|].
  simpl. rewrite !lookup_insert_ne, lookup_singleton_ne by done.
  by destruct (c !! k).
Qed.

(** X12: a restart restores what was saved.  After [save_timer_data] of
    a study timer whose work and short-break durations are positive, on a
    store whose primary path can be written and read, [load_saved_data]
    on a fresh [StudyTimer()] returns normally and leaves a timer with the
    saved configuration merged over the defaults (the saved configuration
    itself when it has its four keys), the saved history, notes and daily
    goal, and both counters equal to the saved total; the timer is stopped
    in a work session with the full work duration left. *)
Theorem restart_restores_study_timer dm st now (t : StudyTimer) w b :
  filename dm ∉ unwritable st →
  filename dm ∉ unreadable st →
  _timer_config (study_base t) !! "work_duration" = Some w → 0 < w →
  _timer_config (study_base t) !! "short_break" = Some b → 0 < b →
  let st' := (Data.save_timer_data dm (TStudy t) now st).1 in
  ∃ t', Main.load_saved_data dm st' StudyTimer_default = Some (t', Ret ())
    ∧ _timer_config (study_base t')
      = _timer_config (study_base t) ∪ _timer_config PomodoroTimer_default
    ∧ (config_complete (_timer_config (study_base t)) →
       _timer_config (study_base t') = _timer_config (study_base t))
    ∧ _completed_sessions (study_base t') = _completed_sessions (study_base t)
    ∧ _total_sessions (study_base t') = _total_sessions (study_base t)
    ∧ _sessions_completed (study_base t') = _total_sessions (study_base t)
    ∧ _study_notes t' = _study_notes t
    ∧ _daily_goal_minutes t' = _daily_goal_minutes t
    ∧ _current_session_type (study_base t') = "work"
    ∧ _remaining_time (study_base t') = w * 60
    ∧ _is_running (study_base t') = false.
Proof.
  intros Hl Hr Hw Hw0 Hb Hb0 st'. unfold st'.
  unfold Main.load_saved_data. unfold_MO.
  rewrite load_after_save by done. rewrite snapshot_truthy.
  destruct (snapshot_lookup (TStudy t) now) as (Hc & Hn & Hs & _).
  destruct (snapshot_study_lookup t now) as (Hnotes & Hgoal).
  rewrite (restore_config_present _ _ _ Hc).
  rewrite (update_config_good _ _ w b) by done. cbn [fst snd].
  rewrite (restore_sessions_present _ _ _ Hs).
  rewrite (restore_counters_present _ _ _ Hn).
  rewrite (restore_notes_present _ _ _ Hnotes).
  rewrite (restore_goal_present _ _ _ Hgoal).
  eexists. split; [done|]. simpl. split_and!; try done.
  intros Hcc. by apply union_covers_default.
Qed.

Lemma restart_restores_study_timer_witness :
  let t := set_study_base
             (Pomodoro.complete_session "2024-01-01 09:25:00"
                PomodoroTimer_default).1
             (Study.add_study_note "read chapter 3" StudyTimer_default).1 in
  let st' := (Data.save_timer_data DataManager_default (TStudy t)
                "2024-01-01 09:26:00" (mkStore ∅ ∅ ∅)).1 in
  ∃ t', Main.load_saved_data DataManager_default st' StudyTimer_default
        = Some (t', Ret ())
    ∧ _completed_sessions (study_base t')
      = [SessionRecord "work" 25 "2024-01-01 09:25:00" 1]
    ∧ _study_notes t' = ["read chapter 3"]
    ∧ Pomodoro.get_current_session_info (study_base t') = ("work", 1500, 1).
Proof.
  intros t st'.
  destruct (restart_restores_study_timer DataManager_default (mkStore ∅ ∅ ∅)
              "2024-01-01 09:26:00" t 25 5)
    as (t' & Hload & _ & _ & Hs & _ & Hsc & Hn & _ & Hty & Hrem & _);
    [by vm_compute|by vm_compute|done|lia|done|lia|].
  exists t'. split; [exact Hload|]. split_and!.
  - rewrite Hs. by vm_compute.
  - rewrite Hn. by vm_compute.
  - unfold Pomodoro.get_current_session_info. rewrite Hty, Hrem, Hsc.
    by vm_compute.
Defined.

(** X13: a saved configuration without [work_duration], such as the
    snapshot of a revision timer, restores nothing: [update_config] raises
    [KeyError], [load_saved_data] swallows it and returns normally, and the
    timer is left exactly as it was, although the file holds a history and
    a session count. *)
Theorem load_saved_data_without_work_duration dm st m cfg s :
  files st !! filename dm = Some (Document (JObj m)) →
  filename dm ∉ unreadable st →
  Data.has_required required_keys (JObj m) = Ret true →
  m !! "timer_config" = Some (config_json cfg) →
  cfg !! "work_duration" = None →
  Data.load_timer_data dm st = Ret (JObj m)
  ∧ Main.load_saved_data dm st s = Some (s, Ret ()).
Proof.
  intros Hf Hl Hreq Hc Hw.
  assert (Data.load_timer_data dm st = Ret (JObj m)) as Hload.
  { unfold Data.load_timer_data, path_exists, read_text. unfold_M.
    rewrite Hf, bool_decide_true by eauto. cbn [negb].
    rewrite bool_decide_false by done. cbn [json_load]. by rewrite Hreq. }
  split; [done|].
  unfold Main.load_saved_data. unfold_MO. rewrite Hload.
  assert (truthy (JObj m) = true) as ->.
  { simpl. rewrite bool_decide_false; [done|]. intros ->.
    by rewrite lookup_empty in Hc. }
  rewrite (restore_config_present _ _ _ Hc).
  rewrite update_config_no_work by done. cbn [fst snd].
  by destruct s.
Qed.

Lemma load_saved_data_without_work_duration_witness :
  let r := (Revision.complete_session "2024-01-01 10:00:00"
              RevisionTimer_default).1 in
  let st := (Data.save_timer_data DataManager_default (TRevision r)
               "2024-01-01 10:01:00" (mkStore ∅ ∅ ∅)).1 in
  Main.load_saved_data DataManager_default st StudyTimer_default
  = Some (StudyTimer_default, Ret ()).
Proof.
  intros r st.
  eapply (load_saved_data_without_work_duration DataManager_default st
            (Data.snapshot (TRevision r) "2024-01-01 10:01:00")
            (Revision.get_timer_config r)).
  - by vm_compute.
  - by vm_compute.
  - apply snapshot_has_required.
  - by vm_compute.
  - by vm_compute.
Defined.

(** ** The handlers of [PomodoroApplication] *)

Ltac unfold_app :=
  unfold on_app, on_timer, on_disk, timer_start_timer,
    timer_set_running_state, timer_complete_session, timer_update_config,
    dispatch, Pomodoro.set_running_state, Pomodoro.start_timer,
    Revision.set_running_state, Revision.start_timer in *;
  unfold_M.

(** X14: [reset_timer] on a cyclic timer whose three durations are
    positive returns normally and leaves the application inactive and the
    timer stopped, in a work session, with exactly the work duration times
    60 left, so within the bound of its session whatever the remaining
    time was before; configuration, history and counters are kept. *)
Theorem reset_timer_restores_bound a p w b l n :
  cyclic (app_timer a) = Some p →
  _timer_config p !! "work_duration" = Some w →
  _timer_config p !! "short_break" = Some b →
  _timer_config p !! "long_break" = Some l →
  _timer_config p !! "sessions_until_long_break" = Some n →
  0 < w → 0 < b → 0 < l →
  ∃ a' p',
    App.reset_timer a = (a', Ret ())
    ∧ cyclic (app_timer a') = Some p'
    ∧ is_timer_active a' = false
    ∧ _is_running p' = false
    ∧ _current_session_type p' = "work"
    ∧ _remaining_time p' = w * 60
    ∧ timer_ok p'
    ∧ _timer_config p' = _timer_config p
    ∧ _completed_sessions p' = _completed_sessions p
    ∧ _sessions_completed p' = _sessions_completed p
    ∧ _total_sessions p' = _total_sessions p.
Proof.
  intros Hcyc Hw Hb Hl Hn ???.
  assert (timer_ok (set_remaining_time (w * 60)
                      (set_current_session_type "work"
                         (set_is_running false p)))) as Hok.
  { split_and!; attrs.
    - exists w, b, l, n. by split_and!.
    - unfold _session_types. set_solver.
    - exists w. split; [|done].
      unfold Pomodoro._get_session_duration, getitem. attrs.
      by rewrite bool_decide_true, Hw. }
  destruct a as [[p0|s0|r0] dm act tv]; simpl in Hcyc; [| |done];
    injection Hcyc as <-; unfold App.reset_timer, getitem; unfold_app;
    simpl; rewrite Hw; simpl; eexists _, _; (split; [done|]); simpl;
    by split_and!.
Qed.

Lemma reset_timer_restores_bound_witness :
  let p := (Pomodoro.update_config
              {[ "work_duration" := 25; "short_break" := 5 ]}
              (Pomodoro.complete_session "2024-01-01 09:25:00"
                 PomodoroTimer_default).1).1 in
  _remaining_time p = 1500 ∧ _current_session_type p = "short_break"
  ∧ ∃ a' p',
      App.reset_timer (PomodoroApplication_init (TPomodoro p)
                         DataManager_default) = (a', Ret ())
      ∧ cyclic (app_timer a') = Some p' ∧ timer_ok p'.
Proof.
  intros p. split; [by vm_compute|]. split; [by vm_compute|].
  destruct (reset_timer_restores_bound
              (PomodoroApplication_init (TPomodoro p) DataManager_default)
              p 25 5 15 4)
    as (a' & p' & Hrun & Hcyc & _ & _ & _ & _ & Hok & _);
    [done|by vm_compute..|lia|lia|lia|].
  by exists a', p'.
Defined.

Lemma save_never_raises dm t now st :
  ∃ st' ok, Data.save_timer_data dm t now st = (st', Ret ok).
Proof.
  destruct (decide (filename dm ∈ unwritable st)) as [Hl|Hl].
  - destruct (save_unwritable_primary dm t now st Hl) as (st' & Hs & _).
    by exists st', false.
  - destruct (save_writes_snapshot dm t now st Hl) as (st' & Hs & _).
    by exists st', true.
Qed.

(** X15: the settings dialog on a cyclic timer.  Entries with a
    non-positive duration or a work duration above 120 are refused: the
    timer and the files stay untouched.  Accepted entries always update
    the timer: the three durations are the entered ones, the cycle length
    is set back to 4, other keys are kept, the remaining time restarts at
    the work duration unless the timer is running, and the timer is saved
    at once, so that a load returns the snapshot with the new
    configuration when the primary path can be written and read. *)
Theorem save_settings_pomodoro w0 p work shortbreak longbreak now :
  cyclic (app_timer (app w0)) = Some p →
  (work ≤ 0 ∨ shortbreak ≤ 0 ∨ longbreak ≤ 0 ∨ 120 < work →
     App.save_settings (PomodoroEntries work shortbreak longbreak) now w0
     = (w0, Ret "Invalid Input"))
  ∧ (0 < work ≤ 120 → 0 < shortbreak → 0 < longbreak →
     ∃ w1 p',
       App.save_settings (PomodoroEntries work shortbreak longbreak) now w0
       = (w1, Ret "Settings Saved")
       ∧ cyclic (app_timer (app w1)) = Some p'
       ∧ _timer_config p' !! "work_duration" = Some work
       ∧ _timer_config p' !! "short_break" = Some shortbreak
       ∧ _timer_config p' !! "long_break" = Some longbreak
       ∧ _timer_config p' !! "sessions_until_long_break" = Some 4
       ∧ (∀ k v, _timer_config p' !! k = Some v →
                 _timer_config p !! k = Some v
                 ∨ k ∈ [ "work_duration"; "short_break"; "long_break";
                         "sessions_until_long_break" ])
       ∧ _remaining_time p' =
           (if _is_running p then _remaining_time p else work * 60)
       ∧ _completed_sessions p' = _completed_sessions p
       ∧ _total_sessions p' = _total_sessions p
       ∧ (filename (data_manager (app w0)) ∉ unwritable (disk w0) →
          filename (data_manager (app w0)) ∉ unreadable (disk w0) →
          Data.load_timer_data (data_manager (app w0)) (disk w1)
          = Ret (JObj (Data.snapshot (app_timer (app w1)) now)))).
Proof.
  intros Hcyc. split.
  - intros Hbad. destruct w0 as [[[p0|s0|r0] dm act tv] d]; simpl in Hcyc;
      [| |done]; unfold App.save_settings; unfold_app; simpl.
    + destruct (decide (work ≤ 0)); [by rewrite bool_decide_true|].
      rewrite (bool_decide_false (work ≤ 0)) by done.
      destruct (decide (shortbreak ≤ 0)); [by rewrite bool_decide_true|].
      rewrite (bool_decide_false (shortbreak ≤ 0)) by done.
      destruct (decide (longbreak ≤ 0)); [by rewrite bool_decide_true|].
      rewrite (bool_decide_false (longbreak ≤ 0)) by done. simpl.
      rewrite bool_decide_true by lia. done.
    + destruct (decide (work ≤ 0)); [by rewrite bool_decide_true|].
      rewrite (bool_decide_false (work ≤ 0)) by done.
      destruct (decide (shortbreak ≤ 0)); [by rewrite bool_decide_true|].
      rewrite (bool_decide_false (shortbreak ≤ 0)) by done.
      destruct (decide (longbreak ≤ 0)); [by rewrite bool_decide_true|].
      rewrite (bool_decide_false (longbreak ≤ 0)) by done. simpl.
      rewrite bool_decide_true by lia. done.
  - intros Hw Hs Hl.
    set (cfg := ({[ "work_duration" := work; "short_break" := shortbreak;
                    "long_break" := longbreak;
                    "sessions_until_long_break" := 4 ]} : gmap string Z)).
    assert (cfg !! "work_duration" = Some work) as Hcw by done.
    assert (cfg !! "short_break" = Some shortbreak) as Hcs by done.
    assert (cfg !! "long_break" = Some longbreak) as Hcl by done.
    assert (cfg !! "sessions_until_long_break" = Some 4) as Hcn by done.
    assert (∀ q, let q' := updated q cfg work in
              _timer_config q' !! "work_duration" = Some work
              ∧ _timer_config q' !! "short_break" = Some shortbreak
              ∧ _timer_config q' !! "long_break" = Some longbreak
              ∧ _timer_config q' !! "sessions_until_long_break" = Some 4
              ∧ (∀ k v, _timer_config q' !! k = Some v →
                        _timer_config q !! k = Some v
                        ∨ k ∈ [ "work_duration"; "short_break"; "long_break";
                                "sessions_until_long_break" ])
              ∧ _remaining_time q' =
                  (if _is_running q then _remaining_time q else work * 60)
              ∧ _completed_sessions q' = _completed_sessions q
              ∧ _total_sessions q' = _total_sessions q) as Hupd.
    { intros q q'.
      assert (_timer_config q' = cfg ∪ _timer_config q) as ->.
      { unfold q', updated. by destruct (_is_running q). }
      split_and!; try (by apply lookup_union_Some_l).
      - intros k v Hk. apply lookup_union_Some_raw in Hk as [Hk|[_ Hk]];
          [right|by left].
        rewrite !elem_of_cons.
        destruct (decide (k = "work_duration")); [by left|].
        destruct (decide (k = "short_break")); [by right; left|].
        destruct (decide (k = "long_break")); [by right; right; left|].
        destruct (decide (k = "sessions_until_long_break"));
          [by right; right; right; left|].
        unfold cfg in Hk.
        by rewrite !lookup_insert_ne, lookup_singleton_ne in Hk.
      - unfold q', updated. by destruct (_is_running q).
      - unfold q', updated. by destruct (_is_running q).
      - unfold q', updated. by destruct (_is_running q). }
    destruct w0 as [[[p0|s0|r0] dm act tv] d]; simpl in Hcyc; [| |done];
      injection Hcyc as <-; unfold App.save_settings; unfold_app; simpl;
      rewrite !bool_decide_false by lia; simpl; fold cfg.
    + rewrite (update_config_good _ _ work shortbreak) by (done || lia).
      cbn [app app_timer data_manager disk set_app_timer].
      destruct (save_never_raises dm (TPomodoro (updated p0 cfg work)) now d)
        as (d' & ok & Hsave).
      rewrite Hsave. eexists _, _. split; [done|]. simpl.
      destruct (Hupd p0) as (? & ? & ? & ? & ? & ? & ? & ?).
      split_and!; try done.
      intros Hlock Hread. replace d' with
        (Data.save_timer_data dm (TPomodoro (updated p0 cfg work)) now d).1
        by by rewrite Hsave.
      by apply load_after_save.
    + rewrite (update_config_good _ _ work shortbreak) by (done || lia).
      cbn [app app_timer data_manager disk set_app_timer].
      destruct (save_never_raises dm
                  (TStudy (set_study_base (updated (study_base s0) cfg work)
                             s0)) now d)
        as (d' & ok & Hsave).
      rewrite Hsave. eexists _, _. split; [done|]. simpl.
      destruct (Hupd (study_base s0)) as (? & ? & ? & ? & ? & ? & ? & ?).
      split_and!; try done.
      intros Hlock Hread. replace d' with
        (Data.save_timer_data dm
           (TStudy (set_study_base (updated (study_base s0) cfg work) s0))
           now d).1
        by by rewrite Hsave.
      by apply load_after_save.
Qed.

Lemma save_settings_pomodoro_witness :
  let w0 := mkWorld (PomodoroApplication_init (TStudy StudyTimer_default)
                       DataManager_default) (mkStore ∅ ∅ ∅) in
  App.save_settings (PomodoroEntries 121 5 15) "2024-01-01 09:00:00" w0
  = (w0, Ret "Invalid Input").
Proof.
  intros w0.
  destruct (save_settings_pomodoro w0 (study_base StudyTimer_default)
              121 5 15 "2024-01-01 09:00:00") as [Hbad _]; [done|].
  apply Hbad. lia.
Defined.

Lemma save_data_pomodoro_mode now w0 :
  timer_type_var (app w0) ≠ "Revision" →
  App.save_data now w0
  = (mkWorld (app w0)
       (Data.save_timer_data (data_manager (app w0)) (app_timer (app w0))
          now (disk w0)).1, Ret ()).
Proof.
  intros Hmode. unfold App.save_data. unfold_app.
  destruct w0 as [a d]. simpl in *.
  rewrite bool_decide_false by done. simpl.
  by destruct (save_never_raises (data_manager a) (app_timer a) now d)
    as (d' & ok & ->).
Qed.

Lemma save_data_revision_mode now w0 :
  timer_type_var (app w0) = "Revision" → App.save_data now w0 = (w0, Ret ()).
Proof.
  intros Hmode. unfold App.save_data. unfold_app.
  destruct w0 as [a d]. simpl in *. by rewrite bool_decide_true.
Qed.



(** X17: in Revision mode nothing is ever written: [save_data] and
    [handle_session_completion] leave every file of the store as it was,
    whatever the timer is and whether or not [complete_session] raises. *)
Theorem revision_mode_never_saves w0 now saved_at :
  timer_type_var (app w0) = "Revision" →
  App.save_data saved_at w0 = (w0, Ret ())
  ∧ disk (App.handle_session_completion now saved_at w0).1 = disk w0.
Proof.
  intros Hmode. split; [by apply save_data_revision_mode|].
  unfold App.handle_session_completion.
  destruct w0 as [[[p0|s0|r0] dm act tv] st]; simpl in Hmode; unfold_app;
    cbn [app app_timer disk].
  - destruct (Pomodoro.complete_session now p0) as [p1 [[]|e]]; [|done].
    cbn [app app_timer disk set_app_timer set_active data_manager
         is_timer_active timer_type_var].
    by rewrite save_data_revision_mode.
  - destruct (Pomodoro.complete_session now (study_base s0))
      as [p1 [[]|e]]; [|done].
    cbn [app app_timer disk set_app_timer set_active data_manager
         is_timer_active timer_type_var].
    by rewrite save_data_revision_mode.
  - destruct (Revision.complete_session now r0) as [r1 [[]|e]]; [|done].
    cbn [app app_timer disk set_app_timer set_active data_manager
         is_timer_active timer_type_var].
    by rewrite save_data_revision_mode.
Qed.

Lemma revision_mode_never_saves_witness :
  let w0 := mkWorld (mkApp (TRevision RevisionTimer_default)
                       DataManager_default true "Revision") (mkStore ∅ ∅ ∅) in
  disk (App.handle_session_completion "2024-01-01 10:00:00"
          "2024-01-01 10:00:01" w0).1 = mkStore ∅ ∅ ∅.
Proof.
  intros w0.
  by apply (revision_mode_never_saves w0 "2024-01-01 10:00:00"
              "2024-01-01 10:00:01").
Defined.

(** ** The two running flags *)

Lemma complete_session_running now p :
  _is_running (Pomodoro.complete_session now p).1 = _is_running p.
Proof.
  rewrite complete_session_unfold.
  destruct (Pomodoro._get_session_duration _ p) as [d|e]; [|done].
  destruct (counted_fields now d p) as (_ & _ & _ & _ & _ & Hr).
  destruct (Pomodoro.get_next_session_type _) as [next|e]; [|done].
  simpl. by destruct (Pomodoro._get_session_duration next p).
Qed.

Lemma update_config_running nc p :
  _is_running (Pomodoro.update_config nc p).1 = _is_running p.
Proof.
  destruct (update_config_result nc p) as [->|[w ->]]; [done|].
  by destruct (updated_frame p nc w) as (_ & _ & _ & _ & ->).
Qed.

Lemma revision_update_config_running nc r :
  r_is_running (Revision.update_config nc r).1 = r_is_running r.
Proof.
  destruct (revision_update_config_cases nc r)
    as [(d & _ & _ & ->)| ->]; simpl; [|done].
  by destruct (r_is_running r) eqn:Hr; simpl; rewrite ?Hr.
Qed.

(** What a method of the timer keeps: its class and its running flag. *)
Lemma timer_complete_session_keeps now t :
  timer_is_running (timer_complete_session now t).1 = timer_is_running t
  ∧ is_pomodoro (timer_complete_session now t).1 = is_pomodoro t.
Proof.
  unfold timer_complete_session, dispatch. destruct t as [p|s|r].
  - pose proof (complete_session_running now p) as Hr.
    destruct (Pomodoro.complete_session now p); simpl in *. by split.
  - pose proof (complete_session_running now (study_base s)) as Hr.
    destruct (Pomodoro.complete_session now (study_base s)); simpl in *.
    by split.
  - done.
Qed.

Lemma timer_update_config_keeps nc t :
  timer_is_running (timer_update_config nc t).1 = timer_is_running t
  ∧ is_pomodoro (timer_update_config nc t).1 = is_pomodoro t.
Proof.
  unfold timer_update_config, dispatch. destruct t as [p|s|r].
  - pose proof (update_config_running nc p) as Hr.
    destruct (Pomodoro.update_config nc p); simpl in *. by split.
  - pose proof (update_config_running nc (study_base s)) as Hr.
    destruct (Pomodoro.update_config nc (study_base s)); simpl in *.
    by split.
  - pose proof (revision_update_config_running nc r) as Hr.
    destruct (Revision.update_config nc r); simpl in *. by split.
Qed.

Lemma save_data_app now w : app (App.save_data now w).1 = app w.
Proof.
  destruct (decide (timer_type_var (app w) = "Revision")).
  - by rewrite save_data_revision_mode.
  - by rewrite save_data_pomodoro_mode.
Qed.

Lemma stop_timer_flags t :
  timer_is_running (timer_set_running_state false t).1 = false
  ∧ is_pomodoro (timer_set_running_state false t).1 = is_pomodoro t
  ∧ (timer_set_running_state false t).2 = Ret ().
Proof. by destruct t. Qed.

Lemma start_timer_keeps w :
  flags_agree w →
  flags_agree (on_app App.start_timer w).1
  ∧ app_frame w (on_app App.start_timer w).1.
Proof.
  unfold flags_agree, app_frame, App.start_timer.
  destruct w as [[[p|s|r] dm act tv] d]; unfold_app; simpl; intros ->.
  - by destruct (_is_running p) eqn:Hr; simpl; rewrite ?Hr.
  - by destruct (_is_running (study_base s)) eqn:Hr; simpl; rewrite ?Hr.
  - by destruct (r_is_running r) eqn:Hr; simpl; rewrite ?Hr.
Qed.

Lemma pause_timer_keeps w :
  flags_agree w →
  flags_agree (on_app App.pause_timer w).1
  ∧ app_frame w (on_app App.pause_timer w).1.
Proof.
  unfold flags_agree, app_frame, App.pause_timer.
  destruct w as [[[p|s|r] dm act tv] d]; unfold_app; simpl; intros ->.
  - by destruct (_is_running p) eqn:Hr; simpl; rewrite ?Hr.
  - by destruct (_is_running (study_base s)) eqn:Hr; simpl; rewrite ?Hr.
  - by destruct (r_is_running r) eqn:Hr; simpl; rewrite ?Hr.
Qed.

Lemma reset_timer_keeps w :
  flags_agree (on_app App.reset_timer w).1
  ∧ app_frame w (on_app App.reset_timer w).1.
Proof.
  unfold flags_agree, app_frame, App.reset_timer, getitem.
  destruct w as [[[p|s|r] dm act tv] d]; unfold_app; simpl.
  - by destruct (_timer_config p !! "work_duration").
  - by destruct (_timer_config (study_base s) !! "work_duration").
  - done.
Qed.

Lemma handle_session_completion_keeps now saved_at w :
  flags_agree w →
  flags_agree (App.handle_session_completion now saved_at w).1
  ∧ app_frame w (App.handle_session_completion now saved_at w).1.
Proof.
  unfold flags_agree, app_frame, App.handle_session_completion.
  destruct w as [[t dm act tv] d]. intros Hagree. simpl in Hagree.
  unfold on_app, on_timer. unfold_M. cbn [app app_timer disk].
  destruct (timer_complete_session_keeps now t) as [Hrun Hcls].
  destruct (timer_complete_session now t) as [t' [[]|e]]; simpl in Hrun, Hcls;
    [|simpl; by rewrite Hrun].
  cbn [app app_timer disk set_app_timer set_active data_manager
       is_timer_active timer_type_var].
  destruct (stop_timer_flags t') as (Hstop & Hcls' & Hret).
  destruct (timer_set_running_state false t') as [t'' o].
  simpl in Hstop, Hcls', Hret. subst o.
  rewrite save_data_app. simpl. by rewrite Hstop, Hcls'.
Qed.

Lemma save_settings_keeps entries now w :
  flags_agree w →
  flags_agree (App.save_settings entries now w).1
  ∧ app_frame w (App.save_settings entries now w).1.
Proof.
  unfold flags_agree, app_frame, App.save_settings.
  destruct w as [[t dm act tv] d]. intros Hagree. simpl in Hagree.
  unfold on_app, on_timer, on_disk. unfold_M. cbn [app app_timer disk].
  destruct (is_revision t) eqn:Hrev.
  - destruct entries as [duration|work shortbreak longbreak]; [|done].
    case_bool_decide; [done|].
    cbn [app app_timer disk set_app_timer data_manager].
    match goal with
    | |- context [timer_update_config ?nc t] =>
        destruct (timer_update_config_keeps nc t) as [Hrun Hcls];
        destruct (timer_update_config nc t) as [t' [[]|e]]
    end; simpl in Hrun, Hcls; simpl; by rewrite Hrun.
  - destruct entries as [duration|work shortbreak longbreak]; [done|].
    destruct (_ || _); [done|]. case_bool_decide; [done|].
    cbn [app app_timer disk set_app_timer data_manager].
    match goal with
    | |- context [timer_update_config ?nc t] =>
        destruct (timer_update_config_keeps nc t) as [Hrun Hcls];
        destruct (timer_update_config nc t) as [t' [ok|e]]
    end; simpl in Hrun, Hcls; [|simpl; by rewrite Hrun].
    cbn [app app_timer disk set_app_timer data_manager].
    destruct (save_never_raises dm t' now d) as (d' & saved & ->).
    destruct ok; simpl; by rewrite Hrun.
Qed.

Lemma handle_keeps e w :
  flags_agree w → flags_agree (handle e w) ∧ app_frame w (handle e w).
Proof.
  intros Hagree. destruct e as [| | |now saved_at|entries now|now]; simpl.
  - by apply start_timer_keeps.
  - by apply pause_timer_keeps.
  - apply reset_timer_keeps.
  - by apply handle_session_completion_keeps.
  - by apply save_settings_keeps.
  - unfold flags_agree, app_frame. by rewrite save_data_app.
Qed.

(** X18: through any sequence of the handlers [start_timer],
    [pause_timer], [reset_timer], [handle_session_completion],
    [save_settings] and [save_data], also when one of them raises, the
    application's [is_timer_active] and the timer's running flag stay
    equal once they are; the data manager, the mode and the class of the
    timer never change. *)
Theorem active_flag_matches_running es w :
  flags_agree w →
  let w' := run_events es w in
  is_timer_active (app w') = timer_is_running (app_timer (app w'))
  ∧ data_manager (app w') = data_manager (app w)
  ∧ timer_type_var (app w') = timer_type_var (app w)
  ∧ is_pomodoro (app_timer (app w')) = is_pomodoro (app_timer (app w)).
Proof.
  revert w. unfold run_events.
  induction es as [|e es IH]; intros w Hagree; simpl; [done|].
  destruct (handle_keeps e w Hagree) as (Hagree' & Hdm & Htv & Hcls).
  destruct (IH (handle e w) Hagree') as (H1 & H2 & H3 & H4).
  split_and!; congruence.
Qed.

Lemma active_flag_matches_running_witness :
  let w := run_events
             [ EvStart; EvSaveSettings (PomodoroEntries 30 5 15)
                          "2024-01-01 09:00:00";
               EvSessionComplete "2024-01-01 09:30:00" "2024-01-01 09:30:01";
               EvStart; EvPause ]
             (mkWorld (PomodoroApplication_init (TStudy StudyTimer_default)
                         DataManager_default) (mkStore ∅ ∅ ∅)) in
  is_timer_active (app w) = timer_is_running (app_timer (app w))
  ∧ is_timer_active (app w) = false.
Proof.
  intros w.
  destruct (active_flag_matches_running
              [ EvStart; EvSaveSettings (PomodoroEntries 30 5 15)
                           "2024-01-01 09:00:00";
                EvSessionComplete "2024-01-01 09:30:00" "2024-01-01 09:30:01";
                EvStart; EvPause ]
              (mkWorld (PomodoroApplication_init (TStudy StudyTimer_default)
                          DataManager_default) (mkStore ∅ ∅ ∅)))
    as (H & _); [done|].
  split; [exact H|]. by vm_compute.
Defined.

(** ** [switch_timer] *)

Lemma timer_update_config_json_typed cfg t :
  timer_update_config_json (config_json cfg) t
  = Some (timer_update_config cfg t).
Proof.
  unfold timer_update_config_json, pomodoro_update_config_json,
    revision_update_config_json, config_json, timer_update_config, dispatch.
  unfold_MO. rewrite config_of_json_fmap.
  destruct t as [p|s|r].
  - by destruct (Pomodoro.update_config cfg p).
  - by destruct (Pomodoro.update_config cfg (study_base s)).
  - by destruct (Revision.update_config cfg r).
Qed.

Section switch_restore.
Variables (m : gmap string json) (a : PomodoroApplication).

Lemma switch_restore_config_present cfg :
  m !! "timer_config" = Some (config_json cfg) →
  Switch.restore_config (JObj m) a =
  Some (set_app_timer (timer_update_config cfg (app_timer a)).1 a,
        match (timer_update_config cfg (app_timer a)).2 with
        | Ret _ => Ret ()
        | Raise e => Raise e
        end).
Proof.
  intros Hm. unfold Switch.restore_config, contains, json_getitem, getitem,
    on_timer_o. unfold_MO.
  rewrite Hm, bool_decide_true by eauto.
  rewrite timer_update_config_json_typed.
  by destruct (timer_update_config cfg (app_timer a)) as [t' [ok|e]].
Qed.

Lemma switch_restore_total_present n :
  m !! "sessions_completed" = Some (JNum n) →
  Switch.restore_total (JObj m) a =
  Some (set_app_timer (timer_set_total_sessions n (app_timer a)) a, Ret ()).
Proof.
  intros Hm. unfold Switch.restore_total, contains, json_getitem, getitem,
    on_timer. unfold_MO. by rewrite Hm, bool_decide_true by eauto.
Qed.

Lemma switch_restore_sessions_present l :
  m !! "completed_sessions" = Some (JArr (record_json <$> l)) →
  Switch.restore_sessions (JObj m) a =
  Some (set_app_timer (timer_set_completed_sessions l (app_timer a)) a,
        Ret ()).
Proof.
  intros Hm. unfold Switch.restore_sessions, contains, json_getitem, getitem,
    on_timer. unfold_MO. rewrite Hm, bool_decide_true by eauto.
  by rewrite sessions_of_json_records.
Qed.
End switch_restore.

(** A fresh [PomodoroTimer()] after a successful [update_config]. *)
Lemma updated_default cfg w :
  let p := updated PomodoroTimer_default cfg w in
  _timer_config p = cfg ∪ _timer_config PomodoroTimer_default
  ∧ _completed_sessions p = []
  ∧ _sessions_completed p = 0
  ∧ _total_sessions p = 0
  ∧ _current_session_type p = "work"
  ∧ _remaining_time p = w * 60
  ∧ _is_running p = false.
Proof.
  unfold updated.
  change (_is_running PomodoroTimer_default) with false.
  cbv iota. attrs. by split_and!.
Qed.

(** X19: switching to the Pomodoro timer after a save.  [switch_timer]
    in Pomodoro mode replaces the timer by a fresh [PomodoroTimer()] and
    gives it the saved configuration (merged over the defaults), the
    saved history and the saved total, but not the work counter:
    [get_current_session_info] reports 0 completed sessions while
    [get_total_sessions] reports the saved total.  The new timer is
    stopped, and the application's [is_timer_active] is left as it
    was. *)
Theorem switch_to_pomodoro_after_save a st now t w b :
  filename (data_manager a) ∉ unwritable st →
  filename (data_manager a) ∉ unreadable st →
  timer_type_var a = "Pomodoro" →
  timer_get_timer_config t !! "work_duration" = Some w → 0 < w →
  timer_get_timer_config t !! "short_break" = Some b → 0 < b →
  let st' := (Data.save_timer_data (data_manager a) t now st).1 in
  ∃ a' p',
    Switch.switch_timer st' a = Some (a', Ret ())
    ∧ app_timer a' = TPomodoro p'
    ∧ _timer_config p'
      = timer_get_timer_config t ∪ _timer_config PomodoroTimer_default
    ∧ _completed_sessions p' = timer_completed_sessions t
    ∧ Pomodoro.get_total_sessions p' = timer_get_total_sessions t
    ∧ Pomodoro.get_current_session_info p' = ("work", w * 60, 0)
    ∧ _is_running p' = false
    ∧ is_timer_active a' = is_timer_active a.
Proof.
  intros Hl Hr Hmode Hw Hw0 Hb Hb0 st'. unfold st'.
  unfold Switch.switch_timer. unfold_MO.
  rewrite load_after_save by done. rewrite Hmode.
  rewrite bool_decide_true by done. rewrite snapshot_truthy.
  destruct (snapshot_lookup t now) as (Hc & Hn & Hs & _).
  rewrite (switch_restore_config_present _ _ _ Hc).
  unfold timer_update_config, dispatch.
  cbn [app_timer set_app_timer].
  rewrite (update_config_good _ _ w b) by done. cbn [fst snd].
  rewrite (switch_restore_total_present _ _ _ Hn).
  rewrite (switch_restore_sessions_present _ _ _ Hs).
  cbn [app_timer set_app_timer timer_set_total_sessions
       timer_set_completed_sessions is_timer_active].
  destruct (updated_default (timer_get_timer_config t) w)
    as (Hcfg & _ & Hsc & _ & Hty & Hrem & Hrun).
  eexists _, _. split; [reflexivity|].
  cbn [app_timer is_timer_active]. split; [reflexivity|].
  unfold Pomodoro.get_total_sessions, Pomodoro.get_current_session_info.
  attrs. rewrite Hcfg, Hsc, Hty, Hrem, Hrun. by split_and!.
Qed.

Lemma switch_to_pomodoro_after_save_witness :
  let p := (Pomodoro.complete_session "2024-01-01 09:25:00"
              PomodoroTimer_default).1 in
  let a := mkApp (TRevision RevisionTimer_default) DataManager_default
             false "Pomodoro" in
  let st' := (Data.save_timer_data DataManager_default (TPomodoro p)
                "2024-01-01 09:26:00" (mkStore ∅ ∅ ∅)).1 in
  ∃ a' p',
    Switch.switch_timer st' a = Some (a', Ret ())
    ∧ app_timer a' = TPomodoro p'
    ∧ Pomodoro.get_total_sessions p' = 1
    ∧ Pomodoro.get_current_session_info p' = ("work", 1500, 0).
Proof.
  intros p a st'.
  destruct (switch_to_pomodoro_after_save a (mkStore ∅ ∅ ∅)
              "2024-01-01 09:26:00" (TPomodoro p) 25 5)
    as (a' & p' & Hrun & Ht & _ & _ & Htot & Hinfo & _);
    [by vm_compute|by vm_compute|reflexivity|by vm_compute|lia|
     by vm_compute|lia|].
  exists a', p'. split; [exact Hrun|]. split; [exact Ht|].
  split; [rewrite Htot; by vm_compute|exact Hinfo].
Defined.

(** X20: switching to the Revision timer after a save of a cyclic
    timer.  The fresh [RevisionTimer()] refuses the saved configuration,
    which has no [duration], and keeps its 60 minutes; it takes over the
    saved total and the saved history of work and break records, and its
    own session counter stays 0. *)
Theorem switch_to_revision_after_save a st now t :
  filename (data_manager a) ∉ unwritable st →
  filename (data_manager a) ∉ unreadable st →
  timer_type_var a = "Revision" →
  timer_get_timer_config t !! "duration" = None →
  let st' := (Data.save_timer_data (data_manager a) t now st).1 in
  ∃ a' r',
    Switch.switch_timer st' a = Some (a', Ret ())
    ∧ app_timer a' = TRevision r'
    ∧ Revision.get_timer_config r' = {[ "duration" := 60 ]}
    ∧ r_completed_sessions r' = timer_completed_sessions t
    ∧ Revision.get_current_session_info r'
      = ("revision", 3600, timer_get_total_sessions t)
    ∧ r_sessions_completed r' = 0
    ∧ r_is_running r' = false
    ∧ is_timer_active a' = is_timer_active a.
Proof.
  intros Hl Hr Hmode Hd st'. unfold st'.
  unfold Switch.switch_timer. unfold_MO.
  rewrite load_after_save by done. rewrite Hmode.
  rewrite bool_decide_false by done. rewrite bool_decide_true by done.
  rewrite snapshot_truthy.
  destruct (snapshot_lookup t now) as (Hc & Hn & Hs & _).
  rewrite (switch_restore_config_present _ _ _ Hc).
  unfold timer_update_config, dispatch.
  cbn [app_timer set_app_timer].
  rewrite revision_update_config_no_duration by done. cbn [fst snd].
  rewrite (switch_restore_total_present _ _ _ Hn).
  rewrite (switch_restore_sessions_present _ _ _ Hs).
  cbn [app_timer set_app_timer timer_set_total_sessions
       timer_set_completed_sessions is_timer_active].
  eexists _, _. split; [reflexivity|].
  cbn [app_timer is_timer_active]. split; [reflexivity|].
  split; [by vm_compute|]. by split_and!.
Qed.

Lemma switch_to_revision_after_save_witness :
  let p := (Pomodoro.complete_session "2024-01-01 09:25:00"
              PomodoroTimer_default).1 in
  let a := mkApp (TPomodoro p) DataManager_default false "Revision" in
  let st' := (Data.save_timer_data DataManager_default (TPomodoro p)
                "2024-01-01 09:26:00" (mkStore ∅ ∅ ∅)).1 in
  ∃ a' r',
    Switch.switch_timer st' a = Some (a', Ret ())
    ∧ app_timer a' = TRevision r'
    ∧ Revision.get_current_session_info r' = ("revision", 3600, 1).
Proof.
  intros p a st'.
  destruct (switch_to_revision_after_save a (mkStore ∅ ∅ ∅)
              "2024-01-01 09:26:00" (TPomodoro p))
    as (a' & r' & Hrun & Ht & _ & _ & Hinfo & _);
    [by vm_compute|by vm_compute|reflexivity|by vm_compute|].
  exists a', r'. split; [exact Hrun|]. split; [exact Ht|].
  rewrite Hinfo. by vm_compute.
Defined.

(** ** Session numbers in the history *)

Lemma counted_numbered now d t : numbered t → numbered (counted now d t).
Proof.
  intros (Hnum & Hpos & Hall). unfold numbered.
  destruct (counted_fields now d t) as (_ & _ & -> & -> & _).
  unfold work_records in *. rewrite filter_app, fmap_app, Hnum.
  case_bool_decide as Hty.
  - rewrite filter_cons_True by done. simpl. split_and!.
    + replace (_sessions_completed t + 1)
        with (Z.of_nat (S (Z.to_nat (_sessions_completed t)))) by lia.
      rewrite seqZ_S. rewrite !Z2Nat.id by done. f_equal. f_equal. lia.
    + lia.
    + apply Forall_app. split.
      * eapply Forall_impl; [exact Hall|]. simpl. intros r ?. lia.
      * apply Forall_singleton. simpl. lia.
  - rewrite filter_cons_False by done. simpl. rewrite app_nil_r.
    split_and!; [done..|].
    apply Forall_app. split; [done|]. apply Forall_singleton. simpl. lia.
Qed.

Lemma complete_session_numbered now t :
  numbered t → numbered (Pomodoro.complete_session now t).1.
Proof.
  intros Hn. rewrite complete_session_unfold.
  destruct (Pomodoro._get_session_duration _ t) as [d|e]; [|done].
  pose proof (counted_numbered now d t Hn) as Hc.
  destruct (Pomodoro.get_next_session_type _) as [next|e]; [|done].
  simpl. by destruct (Pomodoro._get_session_duration next t).
Qed.

Lemma step_numbered guard o t t' :
  PomodoroTrace.step guard o t = Some t' → numbered t → numbered t'.
Proof.
  destruct o as [| |now|nc]; simpl.
  - by intros [= <-].
  - by intros [= <-].
  - intros [= <-]. apply complete_session_numbered.
  - destruct (guard t nc); [|done].
    pose proof (update_config_result nc t) as Hres.
    destruct (Pomodoro.update_config nc t) as [t'' [[]|e]]; try done.
    intros [= <-] Hn. simpl in Hres. destruct Hres as [->|[w ->]]; [done|].
    unfold numbered.
    by destruct (updated_frame t nc w) as (-> & -> & _).
Qed.

Lemma run_numbered guard ops : ∀ t t',
  PomodoroTrace.run guard ops t = Some t' → numbered t → numbered t'.
Proof.
  induction ops as [|o ops IH]; simpl; intros t t'.
  - by intros [= <-].
  - destruct (PomodoroTrace.step guard o t) as [t1|] eqn:Hstep; [|done].
    intros Hrun Hn. eapply IH; [done|]. by eapply step_numbered.
Qed.

(** X21: in every history built from a fresh cyclic timer by
    [start_timer], pause, [complete_session] and successful
    [update_config] calls, the work records carry the session numbers
    1, 2, ..., k in this order, k being the work counter, and every break
    record carries a number between 0 and k. *)
Theorem work_sessions_numbered_in_order wd sb lb ops t :
  PomodoroTrace.run PomodoroTrace.any_update ops
    (PomodoroTimer_init wd sb lb) = Some t →
  rec_session_number <$> work_records (_completed_sessions t)
    = seqZ 1 (_sessions_completed t)
  ∧ Forall (λ r, 0 ≤ rec_session_number r ≤ _sessions_completed t)
      (_completed_sessions t).
Proof.
  intros Hrun.
  assert (numbered (PomodoroTimer_init wd sb lb)) as Hinit.
  { unfold numbered. simpl. by split_and!. }
  by destruct (run_numbered _ _ _ _ Hrun Hinit) as (H1 & _ & H2).
Qed.

Lemma work_sessions_numbered_in_order_witness :
  ∃ t, PomodoroTrace.run PomodoroTrace.any_update
         [ OpComplete "2024-01-01 09:25:00";
           OpComplete "2024-01-01 09:30:00";
           OpComplete "2024-01-01 09:55:00" ]
         PomodoroTimer_default = Some t
       ∧ rec_session_number <$> _completed_sessions t = [1; 1; 2]
       ∧ rec_session_number <$> work_records (_completed_sessions t)
         = seqZ 1 (_sessions_completed t).
Proof.
  eexists. split; [by vm_compute|]. split; [by vm_compute|].
  apply (work_sessions_numbered_in_order 25 5 15
           [ OpComplete "2024-01-01 09:25:00";
             OpComplete "2024-01-01 09:30:00";
             OpComplete "2024-01-01 09:55:00" ]).
  by vm_compute.
Defined.

(** ** The configuration under the handlers *)












